(** * Staging/production reconciliation script: a shallow embedding

    This development embeds the pure part of
    [scripts/comparing-staging-production.ts] (the functions [formatYear],
    [formatCurrency], [compareData], [compareEconomy], [compareEmissions],
    [compareScope3], [compareTotalEmissions], the row construction of
    [generateCSV] and [resolveMatchOrDifference]) and states the properties
    of the reconciliation algorithm over it.

    Conventions.
    - A position that JavaScript may leave out or set to [null] has type
      [js A]: [undefined], [null] or a value.
    - Property access on such a position is either optional chaining
      ([o ?. f], never raises) or plain access ([strict], raises a
      [TypeError] on [undefined] and [null]); each access is translated as
      the source writes it, and a function that contains a plain access
      returns in the error monad [result].
    - The mutable [comparisonResult] object that the helpers push to is
      threaded explicitly: a helper takes it and returns the updated object
      together with its numeric return value.
    - Counters are [Z]; the [accuracy] field is kept in hundredths
      ([3333] stands for the JavaScript number [33.33]). The percentage
      is computed by the script in double precision: the model takes the
      exact quotient and leaves to the platform which way the double falls
      when the exact percentage lies halfway between two hundredths. *)

From Stdlib Require Import ZArith List String Ascii Bool Lia Floats Uint63.
From stdpp Require Import base decidable option list strings pretty gmap.
Import ListNotations.

Local Open Scope string_scope.
Local Open Scope Z_scope.
Local Open Scope list_scope.

(** ** JavaScript values *)

Inductive js (A : Type) : Type :=
| undefined : js A
| null : js A
| val (a : A) : js A.
Arguments undefined {A}.
Arguments null {A}.
Arguments val {A} a.

(** [a?.f] where [f] is itself a position that may be empty. *)
Definition optchain {A B : Type} (o : js A) (f : A -> js B) : js B :=
  match o with
  | val a => f a
  | _ => undefined
  end.

(** [a?.f] where every object [a] has property [f] (such as [length]). *)
Definition optprop {A B : Type} (o : js A) (f : A -> B) : js B :=
  match o with
  | val a => val (f a)
  | _ => undefined
  end.

Notation "o ?. f" := (optchain o f) (at level 25, left associativity).

(** Truthiness of a position holding an object or an array: objects and
    arrays (also empty ones) are truthy, [undefined] and [null] are not. *)
Definition truthy {A : Type} (o : js A) : bool :=
  match o with
  | val _ => true
  | _ => false
  end.

(** Truthiness of a position holding a string, a boolean, a number. *)
Definition truthy_string (o : js string) : bool :=
  match o with
  | val s => negb (String.eqb s "")
  | _ => false
  end.

Definition truthy_bool (o : js bool) : bool :=
  match o with
  | val b => b
  | _ => false
  end.

Definition truthy_Z (o : js Z) : bool :=
  match o with
  | val n => negb (Z.eqb n 0)
  | _ => false
  end.

(** [a === b] on positions holding primitives (numbers without NaN, as
    [JSON.parse] produces them, or strings). *)
Definition strict_eq {A : Type} `{EqDecision A} (a b : js A) : bool :=
  match a, b with
  | undefined, undefined => true
  | null, null => true
  | val x, val y => bool_decide (x = y)
  | _, _ => false
  end.

#[export] Instance js_eq_dec {A : Type} `{EqDecision A} : EqDecision (js A).
Proof. solve_decision. Defined.

(** [a !== undefined]. *)
Definition is_defined {A : Type} (a : js A) : bool :=
  match a with
  | undefined => false
  | _ => true
  end.

(** [a != null] (loose): false for [null] and for [undefined]. *)
Definition not_nullish {A : Type} (a : js A) : bool :=
  match a with
  | val _ => true
  | _ => false
  end.

(** ** Errors *)

Inductive result (A : Type) : Type :=
| Ok (a : A)
| TypeError (msg : string).
Arguments Ok {A} a.
Arguments TypeError {A} msg.

Definition bind {A B : Type} (m : result A) (k : A -> result B) : result B :=
  match m with
  | Ok a => k a
  | TypeError msg => TypeError msg
  end.

#[export] Instance result_bind : MBind result := fun A B k m => bind m k.
#[export] Instance result_ret : MRet result := @Ok.

(** Plain property access [o.prop] (also iteration and method calls on
    [o]): a [TypeError] when [o] is [undefined] or [null]. *)
Definition strict {A : Type} (prop : string) (o : js A) : result A :=
  match o with
  | val a => Ok a
  | undefined =>
      TypeError ("Cannot read properties of undefined (reading '" +:+ prop +:+ "')")
  | null =>
      TypeError ("Cannot read properties of null (reading '" +:+ prop +:+ "')")
  end.

(** The operand of [for (const x of o)]: a [TypeError] when [o] is
    [undefined] or [null]. *)
Definition iterable {A : Type} (o : js (list A)) : result (list A) :=
  match o with
  | val xs => Ok xs
  | undefined => TypeError "undefined is not iterable"
  | null => TypeError "null is not iterable"
  end.

(** A [for (const x of xs)] loop whose body updates a state and may raise. *)
Fixpoint forOf {A S : Type} (body : S -> A -> result S) (xs : list A) (s : S)
  : result S :=
  match xs with
  | [] => Ok s
  | x :: xs' => s' ← body s x; forOf body xs' s'
  end.

(** ** The platform

    What the script takes from the JavaScript runtime and not from the
    repository: the number type with its [===], number-to-string conversion
    (template literals), [Intl.NumberFormat('en-US', {useGrouping: true})],
    the [Date] constructor with [getFullYear], and double-precision
    arithmetic. Of the latter the script uses [(matched / total) * 100]
    followed by [toFixed(2)]; [tie_rounds_up matched total] tells, for a
    percentage that lies exactly halfway between two numbers with two
    decimals, whether the double that the runtime computes is at least
    that halfway value (so that [toFixed(2)] takes the larger of the two)
    or below it (so that it takes the smaller). *)

Class Platform := {
  num : Type;
  num_eq_dec :: EqDecision num;
  Number_toString : num -> string;
  NumberFormat_enUS : num -> string;
  Date : Type;
  Date_new : string -> Date;
  getFullYear : Date -> num;
  tie_rounds_up : Z -> Z -> bool;
}.

(** ** The data model

    The response schema ([schemas.CompanyList]) is imported by the script
    and is not part of it; the records below hold the fields the script
    reads. *)

Section Model.
Context {P : Platform}.

(** Modelled from the spec: the schema of a scope-1 or scope-2 block, four
    fields (total, market-based, location-based, unknown-method) of which
    any subset may be absent. *)
Record Scope := {
  total : js num;
  mb : js num;
  lb : js num;
  unknown : js num;
}.

(** Modelled from the spec: the [statedTotalEmissions] object, holding a
    numeric [total]. *)
Record StatedTotalEmissions := {
  stated_total : js num;
}.

(** Modelled from the spec: a scope-3 category, identified by its category
    number, with its [total]. *)
Record Category := {
  category : num;
  category_total : js num;
}.

(** Modelled from the spec: the scope-3 block, a stated total and a
    collection of categories. *)
Record Scope3 := {
  scope3_statedTotalEmissions : js StatedTotalEmissions;
  categories : js (list Category);
}.

(** Modelled from the spec: the emissions of a reporting period. *)
Record Emissions := {
  scope1 : js Scope;
  scope2 : js Scope;
  scope3 : js Scope3;
  calculatedTotalEmissions : js num;
  statedTotalEmissions : js StatedTotalEmissions;
}.

(** Modelled from the spec: [employees.value] and
    [turnover = {value, currency}]. *)
Record Employees := {
  employees_value : js num;
}.

Record Turnover := {
  turnover_value : js num;
  currency : js string;
}.

Record Economy := {
  employees : js Employees;
  turnover : js Turnover;
}.

(** Modelled from the spec: a reporting period, with its end date and
    optional emissions and economy. *)
Record ReportingPeriod := {
  endDate : string;
  emissions : js Emissions;
  economy : js Economy;
}.

(** Modelled from the spec: a company record. *)
Record Company := {
  wikidataId : string;
  name : string;
  reportingPeriods : list ReportingPeriod;
}.

(** An entry of [mismatchedFields]. [compareData] pushes plain strings;
    [generateCSV] reads the properties [field], [production] and [staging]
    of an entry, which a string does not have. *)
Inductive MismatchEntry : Type :=
| EntryString (s : string)
| EntryObject (field production staging : js string).

(** The objects [compareData] builds. [inStaging] is a property that
    [generateCSV] reads; an object literal that does not mention it leaves
    it [undefined]. *)
Record ComparisonResult := {
  result_name : string;
  inStaging : js bool;
  matchedFields : list string;
  mismatchedFields : list MismatchEntry;
  accuracy : Z;
  note : js string;
}.

(** [comparisonResult.matchedFields.push(s)] *)
Definition push_matched (s : string) (r : ComparisonResult) : ComparisonResult :=
  {| result_name := result_name r;
     inStaging := inStaging r;
     matchedFields := matchedFields r ++ [s];
     mismatchedFields := mismatchedFields r;
     accuracy := accuracy r;
     note := note r |}.

(** [comparisonResult.mismatchedFields.push(s)] *)
Definition push_mismatched (s : string) (r : ComparisonResult) : ComparisonResult :=
  {| result_name := result_name r;
     inStaging := inStaging r;
     matchedFields := matchedFields r;
     mismatchedFields := mismatchedFields r ++ [EntryString s];
     accuracy := accuracy r;
     note := note r |}.

(** [comparisonResult.accuracy = a] *)
Definition set_accuracy (a : Z) (r : ComparisonResult) : ComparisonResult :=
  {| result_name := result_name r;
     inStaging := inStaging r;
     matchedFields := matchedFields r;
     mismatchedFields := mismatchedFields r;
     accuracy := a;
     note := note r |}.

(** [comparisonResult.note = s] *)
Definition set_note (s : string) (r : ComparisonResult) : ComparisonResult :=
  {| result_name := result_name r;
     inStaging := inStaging r;
     matchedFields := matchedFields r;
     mismatchedFields := mismatchedFields r;
     accuracy := accuracy r;
     note := val s |}.

(** Template-literal interpolation [${x}]. *)
Definition interp_num (x : js num) : string :=
  match x with
  | undefined => "undefined"
  | null => "null"
  | val n => Number_toString n
  end.

Definition interp_string (x : js string) : string :=
  match x with
  | undefined => "undefined"
  | null => "null"
  | val s => s
  end.

(** ** [formatYear] and [formatCurrency] *)

Definition formatYear (date : string) : string :=
  Number_toString (getFullYear (Date_new date)).

(** [s.replace(/,/g, ' ')] *)
Fixpoint replace_commas (s : string) : string :=
  match s with
  | EmptyString => EmptyString
  | String c s' =>
      String (if Ascii.eqb c "," then " "%char else c) (replace_commas s')
  end.

(** [Intl.NumberFormat.prototype.format] converts its argument to a number
    first: [null] becomes 0 and [undefined] becomes NaN. *)
Definition NumberFormat_format (amount : js num) : string :=
  match amount with
  | val n => NumberFormat_enUS n
  | null => "0"
  | undefined => "NaN"
  end.

Definition formatCurrency (amount : js num) (currency : js string) : string :=
  replace_commas (NumberFormat_format amount) +:+ " " +:+ interp_string currency.

(** ** [compareEconomy] (lines 118-160) *)

Definition compareEconomy (prodEconomy stageEconomy : js Economy)
    (comparisonResult : ComparisonResult) (year : string)
  : ComparisonResult * Z :=
  let matchedFieldCount := 0 in
  let prodEmployees := prodEconomy ?. employees ?. employees_value in
  let stageEmployees := stageEconomy ?. employees ?. employees_value in
  let '(comparisonResult, matchedFieldCount) :=
    if is_defined prodEmployees && is_defined stageEmployees then
      if strict_eq prodEmployees stageEmployees then
        (push_matched ("employees: " +:+ interp_num prodEmployees) comparisonResult,
         matchedFieldCount + 1)
      else
        (push_mismatched
           ("employees: Production(" +:+ interp_num prodEmployees +:+
            ") vs Staging(" +:+ interp_num stageEmployees +:+ ")")
           comparisonResult,
         matchedFieldCount)
    else (comparisonResult, matchedFieldCount) in
  let prodEconomyValue := prodEconomy ?. turnover ?. turnover_value in
  let prodEconomyCurrency := prodEconomy ?. turnover ?. currency in
  let stageEconomyValue := stageEconomy ?. turnover ?. turnover_value in
  let stageEconomyCurrency := stageEconomy ?. turnover ?. currency in
  if is_defined prodEconomyValue && is_defined stageEconomyValue then
    let formattedProdEconomy := formatCurrency prodEconomyValue prodEconomyCurrency in
    let formattedStageEconomy := formatCurrency stageEconomyValue stageEconomyCurrency in
    if strict_eq prodEconomyValue stageEconomyValue
       && strict_eq prodEconomyCurrency stageEconomyCurrency then
      (push_matched ("economy: " +:+ formattedProdEconomy) comparisonResult,
       matchedFieldCount + 1)
    else
      (push_mismatched
         ("economy: Production(" +:+ formattedProdEconomy +:+
          ") vs Staging(" +:+ formattedStageEconomy +:+ ")")
         comparisonResult,
       matchedFieldCount)
  else (comparisonResult, matchedFieldCount).

(** ** [compareEmissions] (lines 163-190) *)

Definition fields : list string := ["total"; "mb"; "lb"; "unknown"].

(** [scope[field]] on a scope object. *)
Definition scope_get (field : string) (scope : Scope) : js num :=
  if String.eqb field "total" then total scope
  else if String.eqb field "mb" then mb scope
  else if String.eqb field "lb" then lb scope
  else if String.eqb field "unknown" then unknown scope
  else undefined.

(** The body of the loop over [fields] (lines 176-186). *)
Definition compareEmissions_field (scopeName : string)
    (prodScope stageScope : js Scope) (year : string)
    (acc : ComparisonResult * Z) (field : string) : ComparisonResult * Z :=
  let '(comparisonResult, matchedFieldCount) := acc in
  let prodValue := prodScope ?. scope_get field in
  let stageValue := stageScope ?. scope_get field in
  if is_defined prodValue && is_defined stageValue then
    if strict_eq prodValue stageValue then
      (push_matched (scopeName +:+ "." +:+ field +:+ ": " +:+ year) comparisonResult,
       matchedFieldCount + 1)
    else
      (push_mismatched (scopeName +:+ "." +:+ field +:+ ": " +:+ year) comparisonResult,
       matchedFieldCount)
  else (comparisonResult, matchedFieldCount).

Definition compareEmissions (scopeName : string) (prodScope stageScope : js Scope)
    (comparisonResult : ComparisonResult) (year : string)
  : ComparisonResult * Z :=
  let matchedFieldCount := 0 in
  if negb (truthy prodScope) && negb (truthy stageScope) then
    (comparisonResult, matchedFieldCount)
  else
    fold_left (compareEmissions_field scopeName prodScope stageScope year)
      fields (comparisonResult, matchedFieldCount).

(** ** [compareScope3] (lines 193-233) *)

(** The comparison of [statedTotalEmissions.total] (lines 204-211). *)
Definition compareScope3_stated (prodScope3 stageScope3 : js Scope3)
    (year : string) (acc : ComparisonResult * Z) : ComparisonResult * Z :=
  let '(comparisonResult, matchedFieldCount) := acc in
  let prodTotal := prodScope3 ?. scope3_statedTotalEmissions ?. stated_total in
  let stageTotal := stageScope3 ?. scope3_statedTotalEmissions ?. stated_total in
  if strict_eq prodTotal stageTotal then
    if not_nullish prodTotal then
      (push_matched ("scope3.statedTotalEmissions.total: " +:+ year) comparisonResult,
       matchedFieldCount + 1)
    else (comparisonResult, matchedFieldCount)
  else
    (push_mismatched ("scope3.statedTotalEmissions.total: " +:+ year) comparisonResult,
     matchedFieldCount).

(** The body of the loop over the production categories (lines 216-228).
    [stageScope3.categories] is a plain access. *)
Definition compareScope3_category (stageScope3 : js Scope3) (year : string)
    (acc : ComparisonResult * Z) (prodCategory : Category)
  : result (ComparisonResult * Z) :=
  let '(comparisonResult, matchedFieldCount) := acc in
  stage ← strict "categories" stageScope3;
  stageCategories ← strict "find" (categories stage);
  let stageCategory :=
    find (fun cat => bool_decide (category cat = category prodCategory))
      stageCategories in
  match stageCategory with
  | None =>
      Ok (push_mismatched
            ("scope3.category=" +:+ Number_toString (category prodCategory) +:+
             ": " +:+ year) comparisonResult,
          matchedFieldCount)
  | Some stageCategory =>
      if strict_eq (category_total prodCategory) (category_total stageCategory) then
        Ok (push_matched
              ("scope3.category=" +:+ Number_toString (category prodCategory) +:+
               ": " +:+ year) comparisonResult,
            matchedFieldCount + 1)
      else
        Ok (push_mismatched
              ("scope3.category=" +:+ Number_toString (category prodCategory) +:+
               ": " +:+ year) comparisonResult,
            matchedFieldCount)
  end.

Definition compareScope3 (prodScope3 stageScope3 : js Scope3)
    (comparisonResult : ComparisonResult) (year : string)
  : result (ComparisonResult * Z) :=
  let matchedFieldCount := 0 in
  if negb (truthy prodScope3) && negb (truthy stageScope3) then
    Ok (comparisonResult, matchedFieldCount)
  else
    let acc :=
      compareScope3_stated prodScope3 stageScope3 year
        (comparisonResult, matchedFieldCount) in
    if truthy (prodScope3 ?. categories) && truthy (stageScope3 ?. categories) then
      prod ← strict "categories" prodScope3;
      prodCategories ← iterable (categories prod);
      forOf (compareScope3_category stageScope3 year) prodCategories acc
    else Ok acc.

(** ** [compareTotalEmissions] (lines 236-269) *)

Definition compareTotalEmissions (prodEmissions stageEmissions : js Emissions)
    (comparisonResult : ComparisonResult) (year : string)
  : ComparisonResult * Z :=
  let matchedFieldCount := 0 in
  let prodCalculated := prodEmissions ?. calculatedTotalEmissions in
  let stageCalculated := stageEmissions ?. calculatedTotalEmissions in
  let '(comparisonResult, matchedFieldCount) :=
    if strict_eq prodCalculated stageCalculated then
      if not_nullish prodCalculated then
        (push_matched ("calculatedTotalEmissions: " +:+ year) comparisonResult,
         matchedFieldCount + 1)
      else (comparisonResult, matchedFieldCount)
    else
      (push_mismatched ("calculatedTotalEmissions: " +:+ year) comparisonResult,
       matchedFieldCount) in
  let prodStated := prodEmissions ?. statedTotalEmissions ?. stated_total in
  let stageStated := stageEmissions ?. statedTotalEmissions ?. stated_total in
  if strict_eq prodStated stageStated then
    if not_nullish prodStated then
      (push_matched ("statedTotalEmissions.total: " +:+ year) comparisonResult,
       matchedFieldCount + 1)
    else (comparisonResult, matchedFieldCount)
  else
    (push_mismatched ("statedTotalEmissions.total: " +:+ year) comparisonResult,
     matchedFieldCount).

(** ** [compareData] (lines 37-115) *)

(** The variables of the loop over the reporting periods of one company:
    the object under construction and the two counters. *)
Record LoopState := {
  comparisonResult : ComparisonResult;
  matchedFieldCount : Z;
  totalFieldCount : Z;
}.

(** [x || 0] on a number. *)
Definition or_zero (x : js Z) : Z :=
  if truthy_Z x then match x with val n => n | _ => 0 end else 0.

(** Lines 82-83. *)
Definition scope1_step (prodReportingPeriod stageReportingPeriod : ReportingPeriod)
    (year : string) (st : LoopState) : LoopState :=
  let '(cr, n) :=
    compareEmissions "scope1" (emissions prodReportingPeriod ?. scope1)
      (emissions stageReportingPeriod ?. scope1) (comparisonResult st) year in
  {| comparisonResult := cr;
     matchedFieldCount := matchedFieldCount st + n;
     totalFieldCount := totalFieldCount st + 1 |}.

(** Lines 84-85. *)
Definition scope2_step (prodReportingPeriod stageReportingPeriod : ReportingPeriod)
    (year : string) (st : LoopState) : LoopState :=
  let '(cr, n) :=
    compareEmissions "scope2" (emissions prodReportingPeriod ?. scope2)
      (emissions stageReportingPeriod ?. scope2) (comparisonResult st) year in
  {| comparisonResult := cr;
     matchedFieldCount := matchedFieldCount st + n;
     totalFieldCount := totalFieldCount st + 3 |}.

(** Lines 86-87. *)
Definition scope3_step (prodReportingPeriod stageReportingPeriod : ReportingPeriod)
    (year : string) (st : LoopState) : result LoopState :=
  '(cr, n) ←
    compareScope3 (emissions prodReportingPeriod ?. scope3)
      (emissions stageReportingPeriod ?. scope3) (comparisonResult st) year;
  Ok {| comparisonResult := cr;
        matchedFieldCount := matchedFieldCount st + n;
        totalFieldCount :=
          totalFieldCount st +
          (or_zero (optprop (emissions prodReportingPeriod ?. scope3 ?. categories)
                      (fun cs => Z.of_nat (length cs)))
           + 1) |}.

(** Lines 90-91. *)
Definition totalEmissions_step
    (prodReportingPeriod stageReportingPeriod : ReportingPeriod)
    (year : string) (st : LoopState) : LoopState :=
  let '(cr, n) :=
    compareTotalEmissions (emissions prodReportingPeriod)
      (emissions stageReportingPeriod) (comparisonResult st) year in
  {| comparisonResult := cr;
     matchedFieldCount := matchedFieldCount st + n;
     totalFieldCount := totalFieldCount st + 2 |}.

(** Lines 93-94. *)
Definition economy_step (prodReportingPeriod stageReportingPeriod : ReportingPeriod)
    (year : string) (st : LoopState) : LoopState :=
  let '(cr, n) :=
    compareEconomy (economy prodReportingPeriod) (economy stageReportingPeriod)
      (comparisonResult st) year in
  {| comparisonResult := cr;
     matchedFieldCount := matchedFieldCount st + n;
     totalFieldCount := totalFieldCount st + 2 |}.

(** Lines 82-94: the comparison of an aligned pair of reporting periods. *)
Definition aligned_steps (prodReportingPeriod stageReportingPeriod : ReportingPeriod)
    (year : string) (st : LoopState) : result LoopState :=
  let st := scope1_step prodReportingPeriod stageReportingPeriod year st in
  let st := scope2_step prodReportingPeriod stageReportingPeriod year st in
  st ← scope3_step prodReportingPeriod stageReportingPeriod year st;
  let st := totalEmissions_step prodReportingPeriod stageReportingPeriod year st in
  let st := economy_step prodReportingPeriod stageReportingPeriod year st in
  Ok st.

(** Lines 68-95: the body of the loop over the production reporting
    periods. *)
Definition comparePeriod (stageCompany : Company) (st : LoopState)
    (prodReportingPeriod : ReportingPeriod) : result LoopState :=
  let stageReportingPeriod :=
    find (fun rp =>
            String.eqb (formatYear (endDate rp))
              (formatYear (endDate prodReportingPeriod)))
      (reportingPeriods stageCompany) in
  let year := formatYear (endDate prodReportingPeriod) in
  match stageReportingPeriod with
  | None =>
      Ok {| comparisonResult :=
              push_mismatched ("Reporting period: " +:+ year) (comparisonResult st);
            matchedFieldCount := matchedFieldCount st;
            totalFieldCount := totalFieldCount st |}
  | Some stageReportingPeriod =>
      aligned_steps prodReportingPeriod stageReportingPeriod year st
  end.

(** Lines 57-95: the fresh object, the counters and the loop. *)
Definition comparePeriods (prodCompany stageCompany : Company) : result LoopState :=
  forOf (comparePeriod stageCompany) (reportingPeriods prodCompany)
    {| comparisonResult :=
         {| result_name := name prodCompany;
            inStaging := undefined;
            matchedFields := [];
            mismatchedFields := [];
            accuracy := 0;
            note := undefined |};
       matchedFieldCount := 0;
       totalFieldCount := 0 |}.

(** [parseFloat(((matched / total) * 100).toFixed(2))], in hundredths.
    [toFixed(2)] takes the number with two decimals that is closest to the
    double it is applied to and, of two equally close ones, the larger.
    Away from a tie the double [(matched / total) * 100] is close enough
    to the exact percentage for the closest hundredth to be the same (its
    relative error is about 2^-52, against a distance to the next halfway
    value of at least 1 / (2 * total) hundredths), so the exact quotient
    is rounded. When the exact percentage is halfway between two
    hundredths, the double may lie below the halfway value, and
    [toFixed(2)] then takes the smaller hundredth: 23 of 160 is 14.375 and
    the script returns 14.37. The platform decides that case. *)
Definition percentage_toFixed2 (matched total : Z) : Z :=
  let rounded_up := (2 * (10000 * matched) + total) / (2 * total) in
  let halfway := Z.eqb ((2 * (10000 * matched) + total) mod (2 * total)) 0 in
  if halfway && negb (tie_rounds_up matched total)
  then rounded_up - 1
  else rounded_up.

(** Lines 97-109: accuracy and note. *)
Definition finish (st : LoopState) : ComparisonResult :=
  let cr := comparisonResult st in
  let cr :=
    if 0 <? totalFieldCount st then
      set_accuracy (percentage_toFixed2 (matchedFieldCount st) (totalFieldCount st)) cr
    else set_accuracy 0 cr in
  if Nat.eqb (length (mismatchedFields cr)) 0 then
    set_note "All data matches between production and staging" cr
  else
    set_note "Partial mismatch or missing data between production and staging" cr.

(** Lines 47-53: the result for a company that staging does not have. *)
Definition absent_result (prodCompany : Company) : ComparisonResult :=
  {| result_name := name prodCompany;
     inStaging := undefined;
     matchedFields := [];
     mismatchedFields := [EntryString "Company does not exist in staging"];
     accuracy := 0;
     note := val "Exists in production but not in staging" |}.

(** Lines 40-112: the body of the loop over the production companies. *)
Definition compareCompany (stagingData : list Company)
    (comparisonResults : list ComparisonResult) (prodCompany : Company)
  : result (list ComparisonResult) :=
  let stageCompany :=
    find (fun comp => String.eqb (wikidataId comp) (wikidataId prodCompany))
      stagingData in
  match stageCompany with
  | None => Ok (comparisonResults ++ [absent_result prodCompany])
  | Some stageCompany =>
      st ← comparePeriods prodCompany stageCompany;
      Ok (comparisonResults ++ [finish st])
  end.

Definition compareData (stagingData productionData : list Company)
  : result (list ComparisonResult) :=
  forOf (compareCompany stagingData) productionData [].

(** ** [generateCSV] (lines 272-294) and [resolveMatchOrDifference] *)

Record CsvRow := {
  csv_name : string;
  csv_inStaging : string;
  csv_scope1 : string;
  csv_scope2 : string;
  csv_scope3 : string;
  csv_employees : string;
  csv_economy : string;
  csv_accuracy : Z;
}.

(** The properties [generateCSV] reads from an entry of [mismatchedFields];
    a string has none of them. *)
Definition entry_field (e : MismatchEntry) : js string :=
  match e with
  | EntryString _ => undefined
  | EntryObject field _ _ => field
  end.

Definition entry_production (e : MismatchEntry) : js string :=
  match e with
  | EntryString _ => undefined
  | EntryObject _ production _ => production
  end.

Definition entry_staging (e : MismatchEntry) : js string :=
  match e with
  | EntryString _ => undefined
  | EntryObject _ _ staging => staging
  end.

(** [x || "N/A"] on a string. *)
Definition or_NA (x : js string) : string :=
  if truthy_string x then interp_string x else "N/A".

(** Lines 276-282. The accumulator object is used as a map from property
    keys to pairs [(production, staging)]; a key that is not a string is
    converted to one ([undefined] to ["undefined"]). The columns looked up
    below are not properties that an empty object inherits. *)
Definition mismatchedMap_of (mismatched : list MismatchEntry)
  : gmap string (string * string) :=
  fold_left
    (fun acc field =>
       <[interp_string (entry_field field) :=
           (or_NA (entry_production field), or_NA (entry_staging field))]> acc)
    mismatched ∅.

(** [s.startsWith(prefix)] *)
Definition startsWith (s prefix : string) : bool := String.prefix prefix s.

Definition resolveMatchOrDifference (fieldName : string)
    (mismatchedMap : gmap string (string * string)) (matchedFields : list string)
  : string :=
  match mismatchedMap !! fieldName with
  | Some (prodValue, stageValue) =>
      "Production: " +:+ prodValue +:+ ", Staging: " +:+ stageValue
  | None =>
      let matchedField := find (fun field => startsWith field fieldName) matchedFields in
      match matchedField with
      | Some field => if negb (String.eqb field "") then "Yes" else "N/A"
      | None => "N/A"
      end
  end.

(** The row built for one result (lines 274-294). *)
Definition csvRow (result : ComparisonResult) : CsvRow :=
  let mismatchedMap := mismatchedMap_of (mismatchedFields result) in
  {| csv_name := result_name result;
     csv_inStaging := if truthy_bool (inStaging result) then "Yes" else "No";
     csv_scope1 := resolveMatchOrDifference "scope1" mismatchedMap (matchedFields result);
     csv_scope2 := resolveMatchOrDifference "scope2" mismatchedMap (matchedFields result);
     csv_scope3 := resolveMatchOrDifference "scope3" mismatchedMap (matchedFields result);
     csv_employees :=
       resolveMatchOrDifference "employees" mismatchedMap (matchedFields result);
     csv_economy :=
       resolveMatchOrDifference "economy" mismatchedMap (matchedFields result);
     csv_accuracy := accuracy result |}.

Definition generateCSV (results : list ComparisonResult) : list CsvRow :=
  map csvRow results.

(** ** Specification

    What the comparators record, as lists of labels: used to state what the
    loops of the script compute. *)

(** The object after pushing the labels [matched] to [matchedFields] and
    the labels [mismatched] to [mismatchedFields], in order. *)
Definition add_entries (matched mismatched : list string) (r : ComparisonResult)
  : ComparisonResult :=
  {| result_name := result_name r;
     inStaging := inStaging r;
     matchedFields := matchedFields r ++ matched;
     mismatchedFields := mismatchedFields r ++ map EntryString mismatched;
     accuracy := accuracy r;
     note := note r |}.

(** One label, or none. *)
Definition opt_entry (b : bool) (label : string) : list string :=
  if b then [label] else [].

(** The label of a scope field, and the two outcomes of its comparison:
    defined on both sides and strictly equal, defined on both sides and
    not strictly equal. *)
Definition scope_label (scopeName field year : string) : string :=
  scopeName +:+ "." +:+ field +:+ ": " +:+ year.

Definition field_matches (prodScope stageScope : js Scope) (field : string) : bool :=
  is_defined (prodScope ?. scope_get field)
  && is_defined (stageScope ?. scope_get field)
  && strict_eq (prodScope ?. scope_get field) (stageScope ?. scope_get field).

Definition field_differs (prodScope stageScope : js Scope) (field : string) : bool :=
  is_defined (prodScope ?. scope_get field)
  && is_defined (stageScope ?. scope_get field)
  && negb (strict_eq (prodScope ?. scope_get field) (stageScope ?. scope_get field)).

Definition emissions_matched (scopeName : string) (prodScope stageScope : js Scope)
    (year : string) : list string :=
  map (fun f => scope_label scopeName f year)
    (List.filter (field_matches prodScope stageScope) fields).

Definition emissions_mismatched (scopeName : string) (prodScope stageScope : js Scope)
    (year : string) : list string :=
  map (fun f => scope_label scopeName f year)
    (List.filter (field_differs prodScope stageScope) fields).

(** The pattern of lines 204-211, 247-254 and 259-266: a match when the
    two values are strictly equal and not nullish, a mismatch when they are
    not strictly equal. *)
Definition value_matches (a b : js num) : bool := strict_eq a b && not_nullish a.
Definition value_differs (a b : js num) : bool := negb (strict_eq a b).

Definition scope3_stated_label (year : string) : string :=
  "scope3.statedTotalEmissions.total: " +:+ year.

Definition category_label (year : string) (c : Category) : string :=
  "scope3.category=" +:+ Number_toString (category c) +:+ ": " +:+ year.

(** The production category has a staging category of the same number
    (the first one that [find] meets) with a strictly equal total. *)
Definition category_matches (stageCategories : list Category)
    (prodCategory : Category) : bool :=
  match find (fun cat => bool_decide (category cat = category prodCategory))
          stageCategories with
  | Some stageCategory =>
      strict_eq (category_total prodCategory) (category_total stageCategory)
  | None => false
  end.

Definition categories_matched (prodScope3 stageScope3 : js Scope3) (year : string)
  : list string :=
  match prodScope3 ?. categories, stageScope3 ?. categories with
  | val prodCategories, val stageCategories =>
      map (category_label year)
        (List.filter (category_matches stageCategories) prodCategories)
  | _, _ => []
  end.

Definition categories_mismatched (prodScope3 stageScope3 : js Scope3) (year : string)
  : list string :=
  match prodScope3 ?. categories, stageScope3 ?. categories with
  | val prodCategories, val stageCategories =>
      map (category_label year)
        (List.filter (fun c => negb (category_matches stageCategories c))
           prodCategories)
  | _, _ => []
  end.

Definition scope3_matched (prodScope3 stageScope3 : js Scope3) (year : string)
  : list string :=
  opt_entry
    (value_matches (prodScope3 ?. scope3_statedTotalEmissions ?. stated_total)
       (stageScope3 ?. scope3_statedTotalEmissions ?. stated_total))
    (scope3_stated_label year)
  ++ categories_matched prodScope3 stageScope3 year.

Definition scope3_mismatched (prodScope3 stageScope3 : js Scope3) (year : string)
  : list string :=
  opt_entry
    (value_differs (prodScope3 ?. scope3_statedTotalEmissions ?. stated_total)
       (stageScope3 ?. scope3_statedTotalEmissions ?. stated_total))
    (scope3_stated_label year)
  ++ categories_mismatched prodScope3 stageScope3 year.

Definition totalEmissions_matched (prodEmissions stageEmissions : js Emissions)
    (year : string) : list string :=
  opt_entry
    (value_matches (prodEmissions ?. calculatedTotalEmissions)
       (stageEmissions ?. calculatedTotalEmissions))
    ("calculatedTotalEmissions: " +:+ year)
  ++ opt_entry
       (value_matches (prodEmissions ?. statedTotalEmissions ?. stated_total)
          (stageEmissions ?. statedTotalEmissions ?. stated_total))
       ("statedTotalEmissions.total: " +:+ year).

Definition totalEmissions_mismatched (prodEmissions stageEmissions : js Emissions)
    (year : string) : list string :=
  opt_entry
    (value_differs (prodEmissions ?. calculatedTotalEmissions)
       (stageEmissions ?. calculatedTotalEmissions))
    ("calculatedTotalEmissions: " +:+ year)
  ++ opt_entry
       (value_differs (prodEmissions ?. statedTotalEmissions ?. stated_total)
          (stageEmissions ?. statedTotalEmissions ?. stated_total))
       ("statedTotalEmissions.total: " +:+ year).

(** The two comparisons of [compareEconomy]. *)
Definition employees_defined (prodEconomy stageEconomy : js Economy) : bool :=
  is_defined (prodEconomy ?. employees ?. employees_value)
  && is_defined (stageEconomy ?. employees ?. employees_value).

Definition employees_equal (prodEconomy stageEconomy : js Economy) : bool :=
  strict_eq (prodEconomy ?. employees ?. employees_value)
    (stageEconomy ?. employees ?. employees_value).

Definition turnover_defined (prodEconomy stageEconomy : js Economy) : bool :=
  is_defined (prodEconomy ?. turnover ?. turnover_value)
  && is_defined (stageEconomy ?. turnover ?. turnover_value).

Definition turnover_equal (prodEconomy stageEconomy : js Economy) : bool :=
  strict_eq (prodEconomy ?. turnover ?. turnover_value)
    (stageEconomy ?. turnover ?. turnover_value)
  && strict_eq (prodEconomy ?. turnover ?. currency)
       (stageEconomy ?. turnover ?. currency).

Definition economy_matched (prodEconomy stageEconomy : js Economy) : list string :=
  opt_entry
    (employees_defined prodEconomy stageEconomy
     && employees_equal prodEconomy stageEconomy)
    ("employees: " +:+ interp_num (prodEconomy ?. employees ?. employees_value))
  ++ opt_entry
       (turnover_defined prodEconomy stageEconomy
        && turnover_equal prodEconomy stageEconomy)
       ("economy: " +:+
        formatCurrency (prodEconomy ?. turnover ?. turnover_value)
          (prodEconomy ?. turnover ?. currency)).

Definition economy_mismatched (prodEconomy stageEconomy : js Economy) : list string :=
  opt_entry
    (employees_defined prodEconomy stageEconomy
     && negb (employees_equal prodEconomy stageEconomy))
    ("employees: Production(" +:+
     interp_num (prodEconomy ?. employees ?. employees_value) +:+
     ") vs Staging(" +:+
     interp_num (stageEconomy ?. employees ?. employees_value) +:+ ")")
  ++ opt_entry
       (turnover_defined prodEconomy stageEconomy
        && negb (turnover_equal prodEconomy stageEconomy))
       ("economy: Production(" +:+
        formatCurrency (prodEconomy ?. turnover ?. turnover_value)
          (prodEconomy ?. turnover ?. currency) +:+
        ") vs Staging(" +:+
        formatCurrency (stageEconomy ?. turnover ?. turnover_value)
          (stageEconomy ?. turnover ?. currency) +:+ ")").

Definition aligned_matched (prodReportingPeriod stageReportingPeriod : ReportingPeriod)
    (year : string) : list string :=
  emissions_matched "scope1" (emissions prodReportingPeriod ?. scope1)
    (emissions stageReportingPeriod ?. scope1) year
  ++ emissions_matched "scope2" (emissions prodReportingPeriod ?. scope2)
       (emissions stageReportingPeriod ?. scope2) year
  ++ scope3_matched (emissions prodReportingPeriod ?. scope3)
       (emissions stageReportingPeriod ?. scope3) year
  ++ totalEmissions_matched (emissions prodReportingPeriod)
       (emissions stageReportingPeriod) year
  ++ economy_matched (economy prodReportingPeriod) (economy stageReportingPeriod).

Definition aligned_mismatched
    (prodReportingPeriod stageReportingPeriod : ReportingPeriod)
    (year : string) : list string :=
  emissions_mismatched "scope1" (emissions prodReportingPeriod ?. scope1)
    (emissions stageReportingPeriod ?. scope1) year
  ++ emissions_mismatched "scope2" (emissions prodReportingPeriod ?. scope2)
       (emissions stageReportingPeriod ?. scope2) year
  ++ scope3_mismatched (emissions prodReportingPeriod ?. scope3)
       (emissions stageReportingPeriod ?. scope3) year
  ++ totalEmissions_mismatched (emissions prodReportingPeriod)
       (emissions stageReportingPeriod) year
  ++ economy_mismatched (economy prodReportingPeriod) (economy stageReportingPeriod).

(** The number of scope-3 categories of a production period, as line 87
    counts them. *)
Definition categories_count (prodReportingPeriod : ReportingPeriod) : Z :=
  or_zero (optprop (emissions prodReportingPeriod ?. scope3 ?. categories)
             (fun cs => Z.of_nat (length cs))).

Definition aligned_total (prodReportingPeriod : ReportingPeriod) : Z :=
  1 + 3 + (categories_count prodReportingPeriod + 1) + 2 + 2.

(** The staging period that [comparePeriod] aligns with a production
    period. *)
Definition stage_period (stageCompany : Company)
    (prodReportingPeriod : ReportingPeriod) : option ReportingPeriod :=
  find (fun rp =>
          String.eqb (formatYear (endDate rp))
            (formatYear (endDate prodReportingPeriod)))
    (reportingPeriods stageCompany).

Definition period_matched (stageCompany : Company)
    (prodReportingPeriod : ReportingPeriod) : list string :=
  match stage_period stageCompany prodReportingPeriod with
  | Some stageReportingPeriod =>
      aligned_matched prodReportingPeriod stageReportingPeriod
        (formatYear (endDate prodReportingPeriod))
  | None => []
  end.

Definition period_mismatched (stageCompany : Company)
    (prodReportingPeriod : ReportingPeriod) : list string :=
  match stage_period stageCompany prodReportingPeriod with
  | Some stageReportingPeriod =>
      aligned_mismatched prodReportingPeriod stageReportingPeriod
        (formatYear (endDate prodReportingPeriod))
  | None => ["Reporting period: " +:+ formatYear (endDate prodReportingPeriod)]
  end.

Definition period_total (stageCompany : Company)
    (prodReportingPeriod : ReportingPeriod) : Z :=
  match stage_period stageCompany prodReportingPeriod with
  | Some _ => aligned_total prodReportingPeriod
  | None => 0
  end.

Definition sum_Z (l : list Z) : Z := fold_right Z.add 0 l.

Definition company_matched (prodCompany stageCompany : Company) : list string :=
  flat_map (period_matched stageCompany) (reportingPeriods prodCompany).

Definition company_mismatched (prodCompany stageCompany : Company) : list string :=
  flat_map (period_mismatched stageCompany) (reportingPeriods prodCompany).

Definition company_total (prodCompany stageCompany : Company) : Z :=
  sum_Z (map (period_total stageCompany) (reportingPeriods prodCompany)).

(** The object of lines 57-62. *)
Definition fresh_result (prodCompany : Company) : ComparisonResult :=
  {| result_name := name prodCompany;
     inStaging := undefined;
     matchedFields := [];
     mismatchedFields := [];
     accuracy := 0;
     note := undefined |}.

(** The staging company that [compareData] aligns with a production
    company. *)
Definition stage_company (stagingData : list Company) (prodCompany : Company)
  : option Company :=
  find (fun comp => String.eqb (wikidataId comp) (wikidataId prodCompany))
    stagingData.

(** The result that [compareData] pushes for a production company. *)
Definition company_result (stagingData : list Company) (prodCompany : Company)
  : ComparisonResult :=
  match stage_company stagingData prodCompany with
  | None => absent_result prodCompany
  | Some stageCompany =>
      finish
        {| comparisonResult :=
             add_entries (company_matched prodCompany stageCompany)
               (company_mismatched prodCompany stageCompany)
               (fresh_result prodCompany);
           matchedFieldCount :=
             Z.of_nat (length (company_matched prodCompany stageCompany));
           totalFieldCount := company_total prodCompany stageCompany |}
  end.

(** The number of the four fields that a scope block defines. *)
Definition populated (scope : js Scope) : nat :=
  length (List.filter (fun f => is_defined (scope ?. scope_get f)) fields).

(** Every production period populates at most one field of its scope-1
    block and at most three of its scope-2 block: no more than the weights
    that lines 83 and 85 give to the two blocks. *)
Definition scopes_within_weights (prodCompany : Company) : Prop :=
  Forall (fun rp =>
            (populated (emissions rp ?. scope1) <= 1)%nat
            /\ (populated (emissions rp ?. scope2) <= 3)%nat)
    (reportingPeriods prodCompany).

(** No two companies share a [wikidataId], no two reporting periods of a
    company end in the same year, and no two categories of a scope-3 block
    have the same number. *)
Definition distinct_keys (data : list Company) : Prop :=
  NoDup (map wikidataId data)
  /\ Forall
       (fun c =>
          NoDup (map (fun rp => formatYear (endDate rp)) (reportingPeriods c))
          /\ Forall
               (fun rp =>
                  forall cs,
                    emissions rp ?. scope3 ?. categories = val cs ->
                    NoDup (map category cs))
               (reportingPeriods c))
       data.

(** The denominator of a company all of whose reporting periods are
    aligned: 9 plus the number of scope-3 categories, for each period. *)
Definition denominator (c : Company) : Z :=
  sum_Z (map aligned_total (reportingPeriods c)).

(** The key under which [generateCSV] files an entry. *)
Definition entry_key (e : MismatchEntry) : string := interp_string (entry_field e).

Definition entry_values (e : MismatchEntry) : string * string :=
  (or_NA (entry_production e), or_NA (entry_staging e)).

(** ** Further notions used to state properties *)

(** The same reporting period with another end date, and the same company
    with other reporting periods. *)
Definition with_endDate (date : string) (rp : ReportingPeriod) : ReportingPeriod :=
  {| endDate := date; emissions := emissions rp; economy := economy rp |}.

Definition with_reportingPeriods (periods : list ReportingPeriod) (c : Company)
  : Company :=
  {| wikidataId := wikidataId c; name := name c; reportingPeriods := periods |}.

(** The scoped columns of a CSV row, by name. *)
Definition scoped_columns : list (string * (CsvRow -> string)) :=
  [("scope1", csv_scope1); ("scope2", csv_scope2); ("scope3", csv_scope3);
   ("employees", csv_employees); ("economy", csv_economy)].

(** Some production period of the company is aligned with a staging period
    and the pair passes the test. *)
Definition some_aligned_period (prodCompany stageCompany : Company)
    (test : ReportingPeriod -> ReportingPeriod -> bool) : bool :=
  existsb
    (fun prodReportingPeriod =>
       match stage_period stageCompany prodReportingPeriod with
       | Some stageReportingPeriod => test prodReportingPeriod stageReportingPeriod
       | None => false
       end)
    (reportingPeriods prodCompany).

(** Some field of the scope blocks is defined on both sides and equal. *)
Definition scope_has_match (scope : Emissions -> js Scope)
    (prodReportingPeriod stageReportingPeriod : ReportingPeriod) : bool :=
  existsb
    (field_matches (emissions prodReportingPeriod ?. scope)
       (emissions stageReportingPeriod ?. scope))
    fields.

(** The stated totals of the scope-3 blocks match, or some production
    category matches. *)
Definition scope3_has_match
    (prodReportingPeriod stageReportingPeriod : ReportingPeriod) : bool :=
  value_matches
    (emissions prodReportingPeriod ?. scope3 ?. scope3_statedTotalEmissions
       ?. stated_total)
    (emissions stageReportingPeriod ?. scope3 ?. scope3_statedTotalEmissions
       ?. stated_total)
  || match emissions prodReportingPeriod ?. scope3 ?. categories,
           emissions stageReportingPeriod ?. scope3 ?. categories with
     | val prodCategories, val stageCategories =>
         existsb (category_matches stageCategories) prodCategories
     | _, _ => false
     end.

Definition employees_has_match
    (prodReportingPeriod stageReportingPeriod : ReportingPeriod) : bool :=
  employees_defined (economy prodReportingPeriod) (economy stageReportingPeriod)
  && employees_equal (economy prodReportingPeriod) (economy stageReportingPeriod).

Definition turnover_has_match
    (prodReportingPeriod stageReportingPeriod : ReportingPeriod) : bool :=
  turnover_defined (economy prodReportingPeriod) (economy stageReportingPeriod)
  && turnover_equal (economy prodReportingPeriod) (economy stageReportingPeriod).

(** "Yes" or "N/A". *)
Definition yes_or_NA (b : bool) : string := if b then "Yes" else "N/A".

(** The same scope-3 block with another category collection. *)
Definition with_categories (cs : list Category) (s3 : Scope3) : Scope3 :=
  {| scope3_statedTotalEmissions := scope3_statedTotalEmissions s3;
     categories := val cs |}.

End Model.

(** ** A concrete platform

    Integers as numbers, printed in decimal and grouped by thousands,
    dates given by a string that starts with the year, and the double
    arithmetic of the primitive floats. It serves to run the functions on
    concrete datasets. *)

Module IntPlatform.

(** Commas between groups of three digits, on the reversed digit list. *)
Fixpoint group_reversed (ds : list ascii) : list ascii :=
  match ds with
  | a :: b :: c :: ((_ :: _) as rest) => a :: b :: c :: ","%char :: group_reversed rest
  | _ => ds
  end.

Definition grouped (n : Z) : string :=
  let digits := string_of_list_ascii
                  (rev (group_reversed (rev (list_ascii_of_string (pretty (Z.abs n)))))) in
  if n <? 0 then "-" +:+ digits else digits.

Definition digit_of (c : ascii) : option Z :=
  let k := Z.of_nat (nat_of_ascii c) in
  if (48 <=? k) && (k <=? 57) then Some (k - 48) else None.

Fixpoint leading_number (s : string) (acc : Z) : Z :=
  match s with
  | EmptyString => acc
  | String c s' =>
      match digit_of c with
      | Some d => leading_number s' (10 * acc + d)
      | None => acc
      end
  end.

Definition double_of_Z (n : Z) : float := PrimFloat.of_uint63 (Uint63.of_Z n).

(** Whether the double [(matched / total) * 100] is at least [k / 200]:
    the double is [mantissa * 2 ^ exponent] exactly. *)
Definition double_percentage_ge (matched total k : Z) : bool :=
  match Prim2SF (PrimFloat.mul
                   (PrimFloat.div (double_of_Z matched) (double_of_Z total))
                   (double_of_Z 100)) with
  | S754_finite false mantissa exponent =>
      if 0 <=? exponent
      then k <=? 200 * Z.pos mantissa * 2 ^ exponent
      else k * 2 ^ (- exponent) <=? 200 * Z.pos mantissa
  | S754_zero _ => k <=? 0
  | _ => false
  end.

(** At a tie, [20000 * matched / total] is the odd number [2 * j + 1] for
    which the exact percentage is [(2 * j + 1) / 200]. *)
Definition double_tie_rounds_up (matched total : Z) : bool :=
  double_percentage_ge matched total (20000 * matched / total).

#[export] Instance platform : Platform := {|
  num := Z;
  num_eq_dec := Z.eq_dec;
  Number_toString := pretty;
  NumberFormat_enUS := grouped;
  Date := Z;
  Date_new := fun s => leading_number s 0;
  getFullYear := fun y => y;
  tie_rounds_up := double_tie_rounds_up;
|}.

End IntPlatform.

Import IntPlatform.

(** ** Concrete datasets *)

Module Examples.
Import IntPlatform.

Definition scope_total (t : Z) : Scope :=
  {| total := val t; mb := undefined; lb := undefined; unknown := undefined |}.

Definition scope_full (t : Z) : Scope :=
  {| total := val t; mb := val t; lb := val t; unknown := val t |}.

Definition emissions_scope1 (t : Z) : Emissions :=
  {| scope1 := val (scope_total t);
     scope2 := undefined;
     scope3 := undefined;
     calculatedTotalEmissions := undefined;
     statedTotalEmissions := undefined |}.

Definition period (date : string) (e : js Emissions) (ec : js Economy)
  : ReportingPeriod :=
  {| endDate := date; emissions := e; economy := ec |}.

Definition company (id nm : string) (periods : list ReportingPeriod) : Company :=
  {| wikidataId := id; name := nm; reportingPeriods := periods |}.

Definition blank : ComparisonResult :=
  {| result_name := "Acme";
     inStaging := undefined;
     matchedFields := [];
     mismatchedFields := [];
     accuracy := 0;
     note := undefined |}.

Definition blank_state : LoopState :=
  {| comparisonResult := blank; matchedFieldCount := 0; totalFieldCount := 0 |}.

(** Production and staging agree on everything but [scope1.total]. *)
Definition prod_100 : Company :=
  company "Q1" "Acme" [period "2022-12-31" (val (emissions_scope1 100)) undefined].

Definition stage_200 : Company :=
  company "Q1" "Acme" [period "2022-12-31" (val (emissions_scope1 200)) undefined].

(** A reporting period without emissions and economy data. *)
Definition bare_company : Company :=
  company "Q1" "Acme" [period "2022-12-31" null null].

(** A company that only staging has, and a staging period of another year. *)
Definition other_company : Company :=
  company "Q2" "Other" [period "2021-12-31" (val (emissions_scope1 100)) undefined].

Definition stage_2021 : Company :=
  company "Q1" "Acme" [period "2021-12-31" (val (emissions_scope1 100)) undefined].

(** Every scope field populated, with totals, employees and turnover. *)
Definition emissions_full : Emissions :=
  {| scope1 := val (scope_full 1);
     scope2 := val (scope_full 1);
     scope3 := undefined;
     calculatedTotalEmissions := val 1;
     statedTotalEmissions := val {| stated_total := val 1 |} |}.

Definition economy_full : Economy :=
  {| employees := val {| employees_value := val 1 |};
     turnover := val {| turnover_value := val 1000000; currency := val "SEK" |} |}.

Definition full_company : Company :=
  company "Q1" "Acme"
    [period "2022-12-31" (val emissions_full) (val economy_full)].

(** One matching field against 20000 scope-3 categories that only
    production lists. *)
Definition many_categories : list Category :=
  map (fun i => {| category := Z.of_nat i; category_total := val 1 |}) (seq 1 (Z.to_nat 20000)).

Definition emissions_many (s3 : js Scope3) : Emissions :=
  {| scope1 := undefined;
     scope2 := undefined;
     scope3 := s3;
     calculatedTotalEmissions := val 5;
     statedTotalEmissions := undefined |}.

Definition prod_many : Company :=
  company "Q1" "Acme"
    [period "2022-12-31"
       (val (emissions_many
               (val {| scope3_statedTotalEmissions := undefined;
                       categories := val many_categories |})))
       undefined].

Definition stage_many : Company :=
  company "Q1" "Acme" [period "2022-12-31" (val (emissions_many undefined)) undefined].

(** Totals that are [null] on both sides. *)
Definition emissions_null : Emissions :=
  {| scope1 := undefined;
     scope2 := undefined;
     scope3 := undefined;
     calculatedTotalEmissions := null;
     statedTotalEmissions := val {| stated_total := null |} |}.

Definition scope3_null : Scope3 :=
  {| scope3_statedTotalEmissions := val {| stated_total := null |};
     categories := undefined |}.

(** The scope-3 example of the specification: categories 1, 2, 3 with
    totals 10, 20, 30 against categories 1, 2 with totals 10, 25. *)
Definition categories_prod : list Category :=
  [ {| category := 1; category_total := val 10 |};
    {| category := 2; category_total := val 20 |};
    {| category := 3; category_total := val 30 |} ].

Definition categories_stage : list Category :=
  [ {| category := 1; category_total := val 10 |};
    {| category := 2; category_total := val 25 |} ].

Definition emissions_categories (cs : list Category) : Emissions :=
  {| scope1 := undefined;
     scope2 := undefined;
     scope3 := val {| scope3_statedTotalEmissions := undefined; categories := val cs |};
     calculatedTotalEmissions := undefined;
     statedTotalEmissions := undefined |}.

Definition period_prod : ReportingPeriod :=
  period "2022-12-31" (val (emissions_categories categories_prod)) undefined.

Definition period_stage : ReportingPeriod :=
  period "2022-06-30" (val (emissions_categories categories_stage)) undefined.

(** Two categories with the same number. *)
Definition duplicate_categories : Company :=
  company "Q1" "Acme"
    [period "2022-12-31"
       (val (emissions_categories
               [ {| category := 1; category_total := val 10 |};
                 {| category := 1; category_total := val 20 |} ]))
       undefined].

(** Reporting periods of the years 2022 and 2021, a staging period without
    a scope-3 block, and a result whose mismatch entries are structured. *)
Definition period_2022 : ReportingPeriod :=
  period "2022-12-31" (val (emissions_scope1 100)) undefined.

Definition period_2021 : ReportingPeriod :=
  period "2021-12-31" (val (emissions_scope1 100)) undefined.

Definition period_without_scope3 : ReportingPeriod :=
  period "2022-06-30" (val (emissions_scope1 100)) undefined.

Definition structured_result : ComparisonResult :=
  {| result_name := "Acme";
     inStaging := undefined;
     matchedFields := ["scope1.total: 2022"];
     mismatchedFields :=
       [EntryObject (val "scope1") (val "1") (val "2");
        EntryObject (val "scope1") (val "100") undefined];
     accuracy := 0;
     note := undefined |}.

(** A company with two reporting periods, a scope-2 block whose [mb] is
    [null], and the scope-3 blocks of the categories above. *)
Definition two_period_company : Company :=
  company "Q1" "Acme" [period_2022; period_2021].

Definition scope_mb_null : Scope :=
  {| total := undefined; mb := null; lb := undefined; unknown := undefined |}.

Definition scope3_prod : Scope3 :=
  {| scope3_statedTotalEmissions := undefined; categories := val categories_prod |}.

Definition scope3_stage : Scope3 :=
  {| scope3_statedTotalEmissions := undefined; categories := val categories_stage |}.

Definition category_9 : Category := {| category := 9; category_total := val 90 |}.

(** An economy block whose [employees.value] is [null], emissions whose
    stated total is [null], and emissions without any value. *)
Definition economy_employees_null : Economy :=
  {| employees := val {| employees_value := null |}; turnover := undefined |}.

Definition emissions_stated_null : Emissions :=
  {| scope1 := undefined;
     scope2 := undefined;
     scope3 := undefined;
     calculatedTotalEmissions := undefined;
     statedTotalEmissions := val {| stated_total := null |} |}.

Definition emissions_empty : Emissions :=
  {| scope1 := undefined;
     scope2 := undefined;
     scope3 := undefined;
     calculatedTotalEmissions := undefined;
     statedTotalEmissions := undefined |}.

End Examples.

(** * Properties *)

Section Proofs.
Context {P : Platform}.

Lemma strict_eq_true {A : Type} `{EqDecision A} (a b : js A) :
  strict_eq a b = true <-> a = b.
Proof.
  destruct a, b; simpl; try (split; congruence).
  rewrite bool_decide_eq_true. split; congruence.
Qed.

Lemma strict_eq_false {A : Type} `{EqDecision A} (a b : js A) :
  strict_eq a b = false <-> a <> b.
Proof.
  rewrite <- strict_eq_true. destruct (strict_eq a b); split; congruence.
Qed.


Lemma add_entries_nil r : add_entries [] [] r = r.
Proof. destruct r. unfold add_entries. simpl. by rewrite !app_nil_r. Qed.

Lemma push_matched_add s r : push_matched s r = add_entries [s] [] r.
Proof. unfold push_matched, add_entries. simpl. by rewrite app_nil_r. Qed.

Lemma push_mismatched_add s r : push_mismatched s r = add_entries [] [s] r.
Proof. unfold push_mismatched, add_entries. simpl. by rewrite app_nil_r. Qed.

Lemma add_entries_add_entries m1 mm1 m2 mm2 r :
  add_entries m2 mm2 (add_entries m1 mm1 r) = add_entries (m1 ++ m2) (mm1 ++ mm2) r.
Proof. unfold add_entries. simpl. by rewrite map_app, !app_assoc. Qed.

(** *** What each comparator records *)

Lemma compareEmissions_fold scopeName prodScope stageScope year l cr n :
  fold_left (compareEmissions_field scopeName prodScope stageScope year) l (cr, n) =
  (add_entries
     (map (fun f => scope_label scopeName f year)
        (List.filter (field_matches prodScope stageScope) l))
     (map (fun f => scope_label scopeName f year)
        (List.filter (field_differs prodScope stageScope) l)) cr,
   n + Z.of_nat (length (List.filter (field_matches prodScope stageScope) l))).
Proof.
  revert cr n. induction l as [|f l IH]; intros cr n.
  - simpl. rewrite add_entries_nil. f_equal; lia.
  - cbn [fold_left List.filter]. unfold compareEmissions_field at 2.
    destruct (is_defined (prodScope ?. scope_get f)
              && is_defined (stageScope ?. scope_get f)) eqn:Hd.
    + destruct (strict_eq (prodScope ?. scope_get f) (stageScope ?. scope_get f))
        eqn:He.
      * assert (field_matches prodScope stageScope f = true) as ->
          by (unfold field_matches; by rewrite Hd, He).
        assert (field_differs prodScope stageScope f = false) as ->
          by (unfold field_differs; by rewrite Hd, He).
        rewrite IH, push_matched_add, add_entries_add_entries.
        cbn [map length app]. f_equal; lia.
      * assert (field_matches prodScope stageScope f = false) as ->
          by (unfold field_matches; by rewrite Hd, He).
        assert (field_differs prodScope stageScope f = true) as ->
          by (unfold field_differs; by rewrite Hd, He).
        rewrite IH, push_mismatched_add, add_entries_add_entries.
        reflexivity.
    + assert (field_matches prodScope stageScope f = false) as ->
        by (unfold field_matches; by rewrite Hd).
      assert (field_differs prodScope stageScope f = false) as ->
        by (unfold field_differs; by rewrite Hd).
      by rewrite IH.
Qed.

Lemma compareEmissions_spec scopeName prodScope stageScope cr year :
  compareEmissions scopeName prodScope stageScope cr year =
  (add_entries (emissions_matched scopeName prodScope stageScope year)
     (emissions_mismatched scopeName prodScope stageScope year) cr,
   Z.of_nat (length (emissions_matched scopeName prodScope stageScope year))).
Proof.
  unfold compareEmissions, emissions_matched, emissions_mismatched.
  destruct (negb (truthy prodScope) && negb (truthy stageScope)) eqn:Hn.
  - destruct prodScope, stageScope; try discriminate Hn;
      cbn; by rewrite add_entries_nil.
  - rewrite compareEmissions_fold. rewrite length_map. f_equal.
Qed.

Lemma compareScope3_stated_spec prodScope3 stageScope3 year cr n :
  compareScope3_stated prodScope3 stageScope3 year (cr, n) =
  (add_entries
     (opt_entry
        (value_matches (prodScope3 ?. scope3_statedTotalEmissions ?. stated_total)
           (stageScope3 ?. scope3_statedTotalEmissions ?. stated_total))
        (scope3_stated_label year))
     (opt_entry
        (value_differs (prodScope3 ?. scope3_statedTotalEmissions ?. stated_total)
           (stageScope3 ?. scope3_statedTotalEmissions ?. stated_total))
        (scope3_stated_label year)) cr,
   n + Z.of_nat
         (length
            (opt_entry
               (value_matches
                  (prodScope3 ?. scope3_statedTotalEmissions ?. stated_total)
                  (stageScope3 ?. scope3_statedTotalEmissions ?. stated_total))
               (scope3_stated_label year)))).
Proof.
  unfold compareScope3_stated, value_matches, value_differs, scope3_stated_label.
  destruct (strict_eq _ _); cbn [andb negb opt_entry].
  - destruct (not_nullish _); cbn [opt_entry length].
    + rewrite push_matched_add. f_equal; lia.
    + rewrite add_entries_nil. f_equal; lia.
  - rewrite push_mismatched_add. cbn [length]. f_equal; lia.
Qed.

Lemma compareScope3_category_step stage stageCategories year cr n c :
  categories stage = val stageCategories ->
  compareScope3_category (val stage) year (cr, n) c =
  Ok (if category_matches stageCategories c
      then (push_matched (category_label year c) cr, n + 1)
      else (push_mismatched (category_label year c) cr, n)).
Proof.
  intros Hs. unfold compareScope3_category, category_matches, category_label.
  cbn [strict mbind result_bind bind]. rewrite Hs.
  cbn [strict mbind result_bind bind].
  destruct (find _ stageCategories) as [sc|]; [|done].
  by destruct (strict_eq (category_total c) (category_total sc)).
Qed.

Lemma compareScope3_categories_spec stage stageCategories year prodCategories cr n :
  categories stage = val stageCategories ->
  forOf (compareScope3_category (val stage) year) prodCategories (cr, n) =
  Ok (add_entries
        (map (category_label year)
           (List.filter (category_matches stageCategories) prodCategories))
        (map (category_label year)
           (List.filter (fun c => negb (category_matches stageCategories c))
              prodCategories)) cr,
      n + Z.of_nat
            (length (List.filter (category_matches stageCategories) prodCategories))).
Proof.
  intros Hs. revert cr n.
  induction prodCategories as [|c cs IH]; intros cr n.
  - cbn. rewrite add_entries_nil. do 2 f_equal; lia.
  - cbn [forOf List.filter].
    rewrite (compareScope3_category_step stage stageCategories) by done.
    cbn [mbind result_bind bind].
    destruct (category_matches stageCategories c); cbn [negb]; rewrite IH.
    + rewrite push_matched_add, add_entries_add_entries.
      cbn [map length app]. do 2 f_equal; lia.
    + rewrite push_mismatched_add, add_entries_add_entries.
      reflexivity.
Qed.

Lemma compareScope3_spec prodScope3 stageScope3 cr year :
  compareScope3 prodScope3 stageScope3 cr year =
  Ok (add_entries (scope3_matched prodScope3 stageScope3 year)
        (scope3_mismatched prodScope3 stageScope3 year) cr,
      Z.of_nat (length (scope3_matched prodScope3 stageScope3 year))).
Proof.
  unfold compareScope3, scope3_matched, scope3_mismatched,
    categories_matched, categories_mismatched.
  destruct (negb (truthy prodScope3) && negb (truthy stageScope3)) eqn:Hn.
  - destruct prodScope3, stageScope3; try discriminate Hn;
      cbn; by rewrite add_entries_nil.
  - rewrite compareScope3_stated_spec.
    destruct prodScope3 as [| |prod]; cbn [optchain truthy andb];
      try (rewrite !app_nil_r; do 2 f_equal; lia).
    destruct (categories prod) as [| |prodCategories] eqn:Hp;
      cbn [optchain truthy andb];
      try (rewrite !app_nil_r; do 2 f_equal; lia).
    destruct stageScope3 as [| |stage]; cbn [optchain truthy andb];
      try (rewrite !app_nil_r; do 2 f_equal; lia).
    destruct (categories stage) as [| |stageCategories] eqn:Hs;
      cbn [optchain truthy andb];
      try (rewrite !app_nil_r; do 2 f_equal; lia).
    cbn [strict mbind result_bind bind]. rewrite Hp.
    cbn [iterable mbind result_bind bind].
    rewrite (compareScope3_categories_spec stage stageCategories) by done.
    rewrite add_entries_add_entries, length_app, length_map. do 2 f_equal; lia.
Qed.

Lemma compareTotalEmissions_spec prodEmissions stageEmissions cr year :
  compareTotalEmissions prodEmissions stageEmissions cr year =
  (add_entries (totalEmissions_matched prodEmissions stageEmissions year)
     (totalEmissions_mismatched prodEmissions stageEmissions year) cr,
   Z.of_nat (length (totalEmissions_matched prodEmissions stageEmissions year))).
Proof.
  unfold compareTotalEmissions, totalEmissions_matched, totalEmissions_mismatched,
    value_matches, value_differs.
  destruct (strict_eq (prodEmissions ?. calculatedTotalEmissions) _);
    [destruct (not_nullish (prodEmissions ?. calculatedTotalEmissions))|];
    (destruct (strict_eq (prodEmissions ?. statedTotalEmissions ?. stated_total) _);
     [destruct (not_nullish (prodEmissions ?. statedTotalEmissions ?. stated_total))|]);
    cbn [andb negb opt_entry app length];
    rewrite ?push_matched_add, ?push_mismatched_add, ?add_entries_add_entries,
      ?add_entries_nil;
    reflexivity.
Qed.

Lemma compareEconomy_spec prodEconomy stageEconomy cr year :
  compareEconomy prodEconomy stageEconomy cr year =
  (add_entries (economy_matched prodEconomy stageEconomy)
     (economy_mismatched prodEconomy stageEconomy) cr,
   Z.of_nat (length (economy_matched prodEconomy stageEconomy))).
Proof.
  unfold compareEconomy, economy_matched, economy_mismatched,
    employees_defined, employees_equal, turnover_defined, turnover_equal.
  destruct (is_defined (prodEconomy ?. employees ?. employees_value)
            && is_defined (stageEconomy ?. employees ?. employees_value));
    [destruct (strict_eq (prodEconomy ?. employees ?. employees_value) _)|];
    (destruct (is_defined (prodEconomy ?. turnover ?. turnover_value)
               && is_defined (stageEconomy ?. turnover ?. turnover_value));
     [destruct (strict_eq (prodEconomy ?. turnover ?. turnover_value) _
                && strict_eq (prodEconomy ?. turnover ?. currency) _)|]);
    cbn [andb negb opt_entry app length];
    rewrite ?push_matched_add, ?push_mismatched_add, ?add_entries_add_entries,
      ?add_entries_nil;
    reflexivity.
Qed.

(** *** What the comparison of a company records *)

Lemma aligned_steps_spec prodReportingPeriod stageReportingPeriod year st :
  aligned_steps prodReportingPeriod stageReportingPeriod year st =
  Ok {| comparisonResult :=
          add_entries (aligned_matched prodReportingPeriod stageReportingPeriod year)
            (aligned_mismatched prodReportingPeriod stageReportingPeriod year)
            (comparisonResult st);
        matchedFieldCount :=
          matchedFieldCount st
          + Z.of_nat
              (length (aligned_matched prodReportingPeriod stageReportingPeriod year));
        totalFieldCount := totalFieldCount st + aligned_total prodReportingPeriod |}.
Proof.
  unfold aligned_steps, scope1_step, scope2_step, scope3_step,
    totalEmissions_step, economy_step.
  rewrite compareEmissions_spec. cbv beta iota.
  cbn [comparisonResult matchedFieldCount totalFieldCount].
  rewrite compareEmissions_spec. cbv beta iota.
  cbn [comparisonResult matchedFieldCount totalFieldCount].
  rewrite compareScope3_spec. cbn [mbind result_bind bind].
  cbn [comparisonResult matchedFieldCount totalFieldCount].
  rewrite compareTotalEmissions_spec. cbv beta iota.
  cbn [comparisonResult matchedFieldCount totalFieldCount].
  rewrite compareEconomy_spec. cbv beta iota.
  cbn [comparisonResult matchedFieldCount totalFieldCount].
  rewrite !add_entries_add_entries.
  unfold aligned_matched, aligned_mismatched, aligned_total, categories_count.
  rewrite !length_app, <- ?app_assoc. f_equal. f_equal; lia.
Qed.

Lemma comparePeriod_spec stageCompany st prodReportingPeriod :
  comparePeriod stageCompany st prodReportingPeriod =
  Ok {| comparisonResult :=
          add_entries (period_matched stageCompany prodReportingPeriod)
            (period_mismatched stageCompany prodReportingPeriod)
            (comparisonResult st);
        matchedFieldCount :=
          matchedFieldCount st
          + Z.of_nat (length (period_matched stageCompany prodReportingPeriod));
        totalFieldCount :=
          totalFieldCount st + period_total stageCompany prodReportingPeriod |}.
Proof.
  unfold comparePeriod, period_matched, period_mismatched, period_total.
  fold (stage_period stageCompany prodReportingPeriod).
  destruct (stage_period stageCompany prodReportingPeriod) as [srp|].
  - apply aligned_steps_spec.
  - rewrite push_mismatched_add. cbn [length]. do 2 f_equal; lia.
Qed.

Lemma comparePeriods_loop stageCompany periods st :
  forOf (comparePeriod stageCompany) periods st =
  Ok {| comparisonResult :=
          add_entries (flat_map (period_matched stageCompany) periods)
            (flat_map (period_mismatched stageCompany) periods)
            (comparisonResult st);
        matchedFieldCount :=
          matchedFieldCount st
          + Z.of_nat (length (flat_map (period_matched stageCompany) periods));
        totalFieldCount :=
          totalFieldCount st + sum_Z (map (period_total stageCompany) periods) |}.
Proof.
  revert st. induction periods as [|rp rps IH]; intros st.
  - cbn. rewrite add_entries_nil. destruct st; cbn. do 2 f_equal; lia.
  - cbn [forOf]. rewrite comparePeriod_spec. cbn [mbind result_bind bind].
    rewrite IH. cbn [comparisonResult matchedFieldCount totalFieldCount].
    rewrite add_entries_add_entries. cbn [flat_map map sum_Z fold_right].
    fold (sum_Z (map (period_total stageCompany) rps)).
    rewrite length_app. do 2 f_equal; lia.
Qed.

Lemma comparePeriods_spec prodCompany stageCompany :
  comparePeriods prodCompany stageCompany =
  Ok {| comparisonResult :=
          add_entries (company_matched prodCompany stageCompany)
            (company_mismatched prodCompany stageCompany)
            (fresh_result prodCompany);
        matchedFieldCount :=
          Z.of_nat (length (company_matched prodCompany stageCompany));
        totalFieldCount := company_total prodCompany stageCompany |}.
Proof.
  unfold comparePeriods. rewrite comparePeriods_loop.
  cbn [comparisonResult matchedFieldCount totalFieldCount].
  reflexivity.
Qed.

Lemma compareCompany_spec stagingData results prodCompany :
  compareCompany stagingData results prodCompany =
  Ok (results ++ [company_result stagingData prodCompany]).
Proof.
  unfold compareCompany, company_result.
  fold (stage_company stagingData prodCompany).
  destruct (stage_company stagingData prodCompany) as [sc|]; [|done].
  by rewrite comparePeriods_spec.
Qed.

Lemma compareData_loop stagingData productionData results :
  forOf (compareCompany stagingData) productionData results =
  Ok (results ++ map (company_result stagingData) productionData).
Proof.
  revert results. induction productionData as [|c cs IH]; intros results.
  - cbn. by rewrite app_nil_r.
  - cbn [forOf]. rewrite compareCompany_spec. cbn [mbind result_bind bind].
    rewrite IH. cbn [map]. by rewrite <- app_assoc.
Qed.

Lemma compareData_spec stagingData productionData :
  compareData stagingData productionData =
  Ok (map (company_result stagingData) productionData).
Proof. unfold compareData. by rewrite compareData_loop. Qed.

Lemma Forall2_map_self {A B : Type} (R : A -> B -> Prop) (f : A -> B) (l : list A) :
  (forall x, In x l -> R x (f x)) -> Forall2 R l (map f l).
Proof.
  induction l as [|x l IH]; intros HR; cbn; constructor.
  - apply HR. by left.
  - apply IH. intros y Hy. apply HR. by right.
Qed.

(** *** Accuracy *)

Lemma percentage_toFixed2_bracket m t :
  0 < t ->
  20000 * m - t <= 2 * t * percentage_toFixed2 m t <= 20000 * m + t.
Proof.
  intros Ht. unfold percentage_toFixed2. cbv zeta.
  pose proof (Z.div_mod (2 * (10000 * m) + t) (2 * t) ltac:(lia)) as Hdiv.
  pose proof (Z.mod_pos_bound (2 * (10000 * m) + t) (2 * t) ltac:(lia)) as Hmod.
  destruct (Z.eqb_spec ((2 * (10000 * m) + t) mod (2 * t)) 0) as [Hz|Hnz];
    cbn [andb]; [destruct (tie_rounds_up m t); cbn [negb]|]; lia.
Qed.

Lemma percentage_toFixed2_nonneg m t : 0 <= m -> 0 < t -> 0 <= percentage_toFixed2 m t.
Proof. intros Hm Ht. pose proof (percentage_toFixed2_bracket m t Ht). nia. Qed.

Lemma percentage_toFixed2_zero m t :
  0 <= m -> 0 < t ->
  (20000 * m < t -> percentage_toFixed2 m t = 0)
  /\ (percentage_toFixed2 m t = 0 -> 20000 * m <= t).
Proof.
  intros Hm Ht. pose proof (percentage_toFixed2_bracket m t Ht).
  pose proof (percentage_toFixed2_nonneg m t Hm Ht). split; intros; nia.
Qed.

Lemma percentage_toFixed2_le m t :
  0 <= m -> 0 < t -> m <= t -> percentage_toFixed2 m t <= 10000.
Proof.
  intros Hm Ht Hle. pose proof (percentage_toFixed2_bracket m t Ht). nia.
Qed.


Lemma accuracy_finish st :
  accuracy (finish st) =
  if 0 <? totalFieldCount st
  then percentage_toFixed2 (matchedFieldCount st) (totalFieldCount st)
  else 0.
Proof.
  unfold finish. destruct (0 <? totalFieldCount st);
    destruct (Nat.eqb _ 0); reflexivity.
Qed.

Lemma matchedFields_finish st :
  matchedFields (finish st) = matchedFields (comparisonResult st).
Proof.
  unfold finish. destruct (0 <? totalFieldCount st);
    destruct (Nat.eqb _ 0); reflexivity.
Qed.

Lemma mismatchedFields_finish st :
  mismatchedFields (finish st) = mismatchedFields (comparisonResult st).
Proof.
  unfold finish. destruct (0 <? totalFieldCount st);
    destruct (Nat.eqb _ 0); reflexivity.
Qed.

Lemma inStaging_finish st : inStaging (finish st) = inStaging (comparisonResult st).
Proof.
  unfold finish. destruct (0 <? totalFieldCount st);
    destruct (Nat.eqb _ 0); reflexivity.
Qed.

Lemma result_name_finish st : result_name (finish st) = result_name (comparisonResult st).
Proof.
  unfold finish. destruct (0 <? totalFieldCount st);
    destruct (Nat.eqb _ 0); reflexivity.
Qed.

Lemma note_finish st :
  note (finish st) =
  val (if Nat.eqb (length (mismatchedFields (comparisonResult st))) 0
       then "All data matches between production and staging"
       else "Partial mismatch or missing data between production and staging").
Proof.
  unfold finish. destruct (0 <? totalFieldCount st); cbn [mismatchedFields set_accuracy];
    destruct (Nat.eqb _ 0); reflexivity.
Qed.

(** *** Counting *)

Lemma or_zero_nonneg (x : js Z) : (forall n, x = val n -> 0 <= n) -> 0 <= or_zero x.
Proof.
  intros Hx. unfold or_zero. destruct x as [| |n]; cbn; try lia.
  destruct (Z.eqb n 0); cbn; [lia|]. by apply Hx.
Qed.

Lemma or_zero_length {A : Type} (l : list A) :
  or_zero (val (Z.of_nat (length l))) = Z.of_nat (length l).
Proof.
  unfold or_zero. cbn. destruct (Z.eqb_spec (Z.of_nat (length l)) 0); cbn; lia.
Qed.

Lemma categories_count_nonneg rp : 0 <= categories_count rp.
Proof.
  unfold categories_count. apply or_zero_nonneg. intros n Hn.
  destruct (emissions rp ?. scope3 ?. categories); cbn in Hn; try discriminate.
  injection Hn as <-. lia.
Qed.

Lemma categories_count_val rp cs :
  emissions rp ?. scope3 ?. categories = val cs ->
  categories_count rp = Z.of_nat (length cs).
Proof.
  intros Hc. unfold categories_count. rewrite Hc. cbn [optprop].
  apply or_zero_length.
Qed.

Lemma aligned_total_pos rp : 0 < aligned_total rp.
Proof. unfold aligned_total. pose proof (categories_count_nonneg rp). lia. Qed.

Lemma period_total_nonneg sc rp : 0 <= period_total sc rp.
Proof.
  unfold period_total. destruct (stage_period sc rp); [|lia].
  pose proof (aligned_total_pos rp). lia.
Qed.

Lemma sum_Z_nonneg l : Forall (fun x => 0 <= x) l -> 0 <= sum_Z l.
Proof. induction 1; cbn; [lia|]. fold (sum_Z l). lia. Qed.

Lemma company_total_nonneg pc sc : 0 <= company_total pc sc.
Proof.
  unfold company_total. apply sum_Z_nonneg. apply Forall_map, Forall_forall.
  intros rp _. apply period_total_nonneg.
Qed.

Lemma length_opt_entry b label : (length (opt_entry b label) <= 1)%nat.
Proof. destruct b; cbn; lia. Qed.

Lemma length_filter_impl {A : Type} (f g : A -> bool) (l : list A) :
  (forall x, f x = true -> g x = true) ->
  (length (List.filter f l) <= length (List.filter g l))%nat.
Proof.
  intros Hfg. induction l as [|x l IH]; cbn; [lia|].
  destruct (f x) eqn:Hf.
  - rewrite (Hfg x Hf). cbn. lia.
  - destruct (g x); cbn; lia.
Qed.

Lemma length_filter_le {A : Type} (f : A -> bool) (l : list A) :
  (length (List.filter f l) <= length l)%nat.
Proof. induction l as [|x l IH]; cbn; [lia|]. destruct (f x); cbn; lia. Qed.

Lemma emissions_matched_le scopeName prodScope stageScope year :
  (length (emissions_matched scopeName prodScope stageScope year)
   <= populated prodScope)%nat.
Proof.
  unfold emissions_matched, populated. rewrite length_map.
  apply length_filter_impl. intros f. unfold field_matches.
  rewrite !andb_true_iff. tauto.
Qed.

Lemma scope3_matched_le prodReportingPeriod stageReportingPeriod year :
  Z.of_nat
    (length (scope3_matched (emissions prodReportingPeriod ?. scope3)
               (emissions stageReportingPeriod ?. scope3) year))
  <= categories_count prodReportingPeriod + 1.
Proof.
  unfold scope3_matched. rewrite length_app.
  pose proof (length_opt_entry
    (value_matches
       (emissions prodReportingPeriod ?. scope3 ?. scope3_statedTotalEmissions
          ?. stated_total)
       (emissions stageReportingPeriod ?. scope3 ?. scope3_statedTotalEmissions
          ?. stated_total))
    (scope3_stated_label year)) as H1.
  pose proof (categories_count_nonneg prodReportingPeriod) as H0.
  unfold categories_matched.
  destruct (emissions prodReportingPeriod ?. scope3 ?. categories)
    as [| |pcs] eqn:Hp; cbn [length]; try lia.
  destruct (emissions stageReportingPeriod ?. scope3 ?. categories)
    as [| |scs] eqn:Hs; cbn [length]; try lia.
  rewrite length_map, (categories_count_val _ pcs Hp).
  pose proof (length_filter_le (category_matches scs) pcs). lia.
Qed.

Lemma totalEmissions_matched_le prodEmissions stageEmissions year :
  (length (totalEmissions_matched prodEmissions stageEmissions year) <= 2)%nat.
Proof.
  unfold totalEmissions_matched. rewrite length_app.
  pose proof (length_opt_entry
    (value_matches (prodEmissions ?. calculatedTotalEmissions)
       (stageEmissions ?. calculatedTotalEmissions))
    ("calculatedTotalEmissions: " +:+ year)).
  pose proof (length_opt_entry
    (value_matches (prodEmissions ?. statedTotalEmissions ?. stated_total)
       (stageEmissions ?. statedTotalEmissions ?. stated_total))
    ("statedTotalEmissions.total: " +:+ year)).
  lia.
Qed.

Lemma economy_matched_le prodEconomy stageEconomy :
  (length (economy_matched prodEconomy stageEconomy) <= 2)%nat.
Proof.
  unfold economy_matched. rewrite length_app.
  match goal with
  | |- (length (opt_entry ?b1 ?l1) + length (opt_entry ?b2 ?l2) <= 2)%nat =>
      pose proof (length_opt_entry b1 l1); pose proof (length_opt_entry b2 l2)
  end.
  lia.
Qed.

Lemma aligned_matched_le prodReportingPeriod stageReportingPeriod year :
  (populated (emissions prodReportingPeriod ?. scope1) <= 1)%nat ->
  (populated (emissions prodReportingPeriod ?. scope2) <= 3)%nat ->
  Z.of_nat (length (aligned_matched prodReportingPeriod stageReportingPeriod year))
  <= aligned_total prodReportingPeriod.
Proof.
  intros H1 H2. unfold aligned_matched, aligned_total. rewrite !length_app.
  pose proof (emissions_matched_le "scope1" (emissions prodReportingPeriod ?. scope1)
                (emissions stageReportingPeriod ?. scope1) year).
  pose proof (emissions_matched_le "scope2" (emissions prodReportingPeriod ?. scope2)
                (emissions stageReportingPeriod ?. scope2) year).
  pose proof (scope3_matched_le prodReportingPeriod stageReportingPeriod year).
  pose proof (totalEmissions_matched_le (emissions prodReportingPeriod)
                (emissions stageReportingPeriod) year).
  pose proof (economy_matched_le (economy prodReportingPeriod)
                (economy stageReportingPeriod)).
  lia.
Qed.

Lemma company_matched_le prodCompany stageCompany :
  scopes_within_weights prodCompany ->
  Z.of_nat (length (company_matched prodCompany stageCompany))
  <= company_total prodCompany stageCompany.
Proof.
  unfold scopes_within_weights, company_matched, company_total.
  induction 1 as [|rp rps [H1 H2] _ IH]; cbn [flat_map map sum_Z fold_right length].
  - lia.
  - fold (sum_Z (map (period_total stageCompany) rps)). rewrite length_app.
    assert (Z.of_nat (length (period_matched stageCompany rp))
            <= period_total stageCompany rp).
    { unfold period_matched, period_total.
      destruct (stage_period stageCompany rp) as [srp|]; cbn [length]; [|lia].
      by apply aligned_matched_le. }
    lia.
Qed.

(** C1 (as amended). For every pair of datasets [compareData] returns one
    result per production company. The result of a company that staging
    does not have has accuracy 0. For a company that staging has, with the
    counters [matchedFieldCount] and [totalFieldCount] that the loop over
    its reporting periods ends with: both counters and the accuracy are not
    negative; the accuracy is 0 when [totalFieldCount] is 0 or
    [matchedFieldCount] is 0, and also whenever
    [matchedFieldCount / totalFieldCount * 100] is below 0.005; an accuracy
    of 0 implies that [totalFieldCount] is 0 or that this percentage is at
    most 0.005; the accuracy is at most 100 whenever [matchedFieldCount]
    does not exceed [totalFieldCount], which holds when no scope-1 block
    populates more than one and no scope-2 block more than three of the
    four fields. (Accuracies are in hundredths: [10000] is 100.) *)
Theorem accuracy_range (stagingData productionData : list Company) :
  exists results,
    compareData stagingData productionData = Ok results
    /\ Forall2
         (fun prodCompany r =>
            match stage_company stagingData prodCompany with
            | None => accuracy r = 0
            | Some stageCompany =>
                exists st,
                  comparePeriods prodCompany stageCompany = Ok st
                  /\ r = finish st
                  /\ 0 <= matchedFieldCount st
                  /\ 0 <= totalFieldCount st
                  /\ 0 <= accuracy r
                  /\ (totalFieldCount st = 0 \/ matchedFieldCount st = 0 ->
                      accuracy r = 0)
                  /\ (20000 * matchedFieldCount st < totalFieldCount st ->
                      accuracy r = 0)
                  /\ (accuracy r = 0 ->
                      totalFieldCount st = 0
                      \/ 20000 * matchedFieldCount st <= totalFieldCount st)
                  /\ (matchedFieldCount st <= totalFieldCount st ->
                      accuracy r <= 10000)
                  /\ (scopes_within_weights prodCompany ->
                      matchedFieldCount st <= totalFieldCount st)
            end)
         productionData results.
Proof.
  exists (map (company_result stagingData) productionData).
  split; [apply compareData_spec|].
  apply Forall2_map_self.
  intros prodCompany _. unfold company_result.
  destruct (stage_company stagingData prodCompany) as [stageCompany|]; [|done].
  eexists. split; [apply comparePeriods_spec|]. split; [reflexivity|].
  rewrite accuracy_finish.
  cbn [matchedFieldCount totalFieldCount].
  pose proof (company_total_nonneg prodCompany stageCompany) as Ht.
  set (t := company_total prodCompany stageCompany) in *.
  set (m := Z.of_nat (length (company_matched prodCompany stageCompany))).
  assert (0 <= m) as Hm by lia.
  pose proof (company_matched_le prodCompany stageCompany) as Hle.
  fold t m in Hle.
  destruct (Z.ltb_spec 0 t) as [Hpos|Hz].
  - pose proof (percentage_toFixed2_nonneg m t Hm Hpos).
    pose proof (percentage_toFixed2_zero m t Hm Hpos).
    pose proof (percentage_toFixed2_le m t Hm Hpos).
    repeat split; try lia; try tauto.
  - repeat split; try lia; try tauto.
Qed.

(** *** A dataset compared with itself *)
















(** *** The comparators, claim by claim *)

Lemma value_matches_decide (a b : js num) :
  value_matches a b = bool_decide (a = b /\ a <> null /\ a <> undefined).
Proof.
  unfold value_matches. destruct (strict_eq a b) eqn:He.
  - apply strict_eq_true in He as <-.
    destruct a; cbn; symmetry;
      try (apply bool_decide_eq_false; tauto).
    apply bool_decide_eq_true. repeat split; congruence.
  - apply strict_eq_false in He. symmetry. cbn.
    apply bool_decide_eq_false. tauto.
Qed.

Lemma value_differs_decide (a b : js num) :
  value_differs a b = bool_decide (a <> b).
Proof.
  unfold value_differs. destruct (strict_eq a b) eqn:He; cbn; symmetry.
  - apply strict_eq_true in He. apply bool_decide_eq_false. tauto.
  - apply strict_eq_false in He. by apply bool_decide_eq_true.
Qed.

(** C3 (as amended). In the total-emissions comparison
    ([calculatedTotalEmissions] and [statedTotalEmissions.total]) and in
    the scope-3 stated-total comparison, a compared pair of values yields a
    [matchedFields] entry iff the two values are strictly equal and neither
    [null] nor absent, and a [mismatchedFields] entry iff they are not
    strictly equal; when both are [null], or both absent, neither list
    gains an entry. The returned count is the number of matches. *)
Theorem stated_and_total_emissions
    (prodEmissions stageEmissions : js Emissions)
    (prodScope3 stageScope3 : js Scope3) (cr : ComparisonResult) (year : string) :
  let a := prodEmissions ?. calculatedTotalEmissions in
  let b := stageEmissions ?. calculatedTotalEmissions in
  let c := prodEmissions ?. statedTotalEmissions ?. stated_total in
  let d := stageEmissions ?. statedTotalEmissions ?. stated_total in
  let e := prodScope3 ?. scope3_statedTotalEmissions ?. stated_total in
  let f := stageScope3 ?. scope3_statedTotalEmissions ?. stated_total in
  let matched_total :=
    opt_entry (bool_decide (a = b /\ a <> null /\ a <> undefined))
      ("calculatedTotalEmissions: " +:+ year)
    ++ opt_entry (bool_decide (c = d /\ c <> null /\ c <> undefined))
         ("statedTotalEmissions.total: " +:+ year) in
  let mismatched_total :=
    opt_entry (bool_decide (a <> b)) ("calculatedTotalEmissions: " +:+ year)
    ++ opt_entry (bool_decide (c <> d)) ("statedTotalEmissions.total: " +:+ year) in
  let matched_scope3 :=
    opt_entry (bool_decide (e = f /\ e <> null /\ e <> undefined))
      ("scope3.statedTotalEmissions.total: " +:+ year)
    ++ categories_matched prodScope3 stageScope3 year in
  let mismatched_scope3 :=
    opt_entry (bool_decide (e <> f))
      ("scope3.statedTotalEmissions.total: " +:+ year)
    ++ categories_mismatched prodScope3 stageScope3 year in
  compareTotalEmissions prodEmissions stageEmissions cr year =
    (add_entries matched_total mismatched_total cr,
     Z.of_nat (length matched_total))
  /\ compareScope3 prodScope3 stageScope3 cr year =
       Ok (add_entries matched_scope3 mismatched_scope3 cr,
           Z.of_nat (length matched_scope3)).
Proof.
  cbv zeta. rewrite <- !value_matches_decide, <- !value_differs_decide.
  split.
  - apply compareTotalEmissions_spec.
  - apply compareScope3_spec.
Qed.

(** C5. [compareData] returns one result per production company, in the
    order of the production dataset and carrying that company's name. The
    result of a production company whose [wikidataId] no staging company
    has is exactly: no matched field, the single mismatch entry "Company
    does not exist in staging", accuracy 0 and the note "Exists in
    production but not in staging". A staging company whose [wikidataId] no
    production company has does not change the results. *)
Theorem absent_company (stagingData productionData : list Company) :
  exists results,
    compareData stagingData productionData = Ok results
    /\ length results = length productionData
    /\ Forall2
         (fun prodCompany r =>
            result_name r = name prodCompany
            /\ ((forall c, In c stagingData ->
                           wikidataId c <> wikidataId prodCompany) ->
                r = {| result_name := name prodCompany;
                       inStaging := undefined;
                       matchedFields := [];
                       mismatchedFields :=
                         [EntryString "Company does not exist in staging"];
                       accuracy := 0;
                       note := val "Exists in production but not in staging" |}))
         productionData results
    /\ (forall before extra after,
          stagingData = before ++ extra :: after ->
          (forall c, In c productionData -> wikidataId c <> wikidataId extra) ->
          compareData (before ++ after) productionData = Ok results).
Proof.
  exists (map (company_result stagingData) productionData).
  split; [apply compareData_spec|]. split; [apply length_map|]. split.
  - apply Forall2_map_self. intros prodCompany _. unfold company_result. split.
    + destruct (stage_company stagingData prodCompany); [|done].
      by rewrite result_name_finish.
    + intros Hno. unfold stage_company.
      destruct (find _ stagingData) as [c|] eqn:Hfind; [|done].
      apply find_some in Hfind as [Hin Heq]. apply String.eqb_eq in Heq.
      by destruct (Hno c Hin).
  - intros before extra after -> Hextra. rewrite compareData_spec. f_equal.
    apply map_ext_in. intros prodCompany Hin.
    unfold company_result, stage_company.
    assert (find (fun comp => String.eqb (wikidataId comp) (wikidataId prodCompany))
              (before ++ extra :: after) =
            find (fun comp => String.eqb (wikidataId comp) (wikidataId prodCompany))
              (before ++ after)) as ->; [|done].
    induction before as [|x before IH]; cbn.
    + destruct (String.eqb_spec (wikidataId extra) (wikidataId prodCompany)) as [He|];
        [|done].
      by destruct (Hextra prodCompany Hin).
    + by destruct (String.eqb (wikidataId x) (wikidataId prodCompany)).
Qed.

(** C6. [compareEmissions] goes through the four fields total, mb, lb and
    unknown in this order. A field that both scope blocks define (a value
    other than [undefined] on both sides) appends the entry
    "<scope>.<field>: <year>" to [matchedFields] when the two values are
    strictly equal and to [mismatchedFields] when they are not; a field
    that either side omits appends nothing; the returned count is the
    number of matches. For an aligned pair of reporting periods, lines
    82-85 do this for the scope-1 blocks of the pair under the name
    "scope1" and then for its scope-2 blocks under the name "scope2": the
    entries are appended to the result, the matches are added to
    [matchedFieldCount], and the denominator grows by 1 for scope 1 and by
    3 for scope 2, whatever the blocks hold. *)
Theorem scope_fields (scopeName : string) (prodScope stageScope : js Scope)
    (cr : ComparisonResult) (year : string)
    (prodReportingPeriod stageReportingPeriod : ReportingPeriod) (st : LoopState) :
  let defined p s f :=
    is_defined (p ?. scope_get f) && is_defined (s ?. scope_get f) in
  let equal p s f := strict_eq (p ?. scope_get f) (s ?. scope_get f) in
  let label name f := name +:+ "." +:+ f +:+ ": " +:+ year in
  let matched name p s :=
    map (label name)
      (List.filter (fun f => defined p s f && equal p s f)
         ["total"; "mb"; "lb"; "unknown"]) in
  let mismatched name p s :=
    map (label name)
      (List.filter (fun f => defined p s f && negb (equal p s f))
         ["total"; "mb"; "lb"; "unknown"]) in
  let prodScope1 := emissions prodReportingPeriod ?. scope1 in
  let stageScope1 := emissions stageReportingPeriod ?. scope1 in
  let prodScope2 := emissions prodReportingPeriod ?. scope2 in
  let stageScope2 := emissions stageReportingPeriod ?. scope2 in
  compareEmissions scopeName prodScope stageScope cr year =
    (add_entries (matched scopeName prodScope stageScope)
       (mismatched scopeName prodScope stageScope) cr,
     Z.of_nat (length (matched scopeName prodScope stageScope)))
  /\ scope1_step prodReportingPeriod stageReportingPeriod year st =
     {| comparisonResult :=
          add_entries (matched "scope1" prodScope1 stageScope1)
            (mismatched "scope1" prodScope1 stageScope1) (comparisonResult st);
        matchedFieldCount :=
          matchedFieldCount st
          + Z.of_nat (length (matched "scope1" prodScope1 stageScope1));
        totalFieldCount := totalFieldCount st + 1 |}
  /\ scope2_step prodReportingPeriod stageReportingPeriod year st =
     {| comparisonResult :=
          add_entries (matched "scope2" prodScope2 stageScope2)
            (mismatched "scope2" prodScope2 stageScope2) (comparisonResult st);
        matchedFieldCount :=
          matchedFieldCount st
          + Z.of_nat (length (matched "scope2" prodScope2 stageScope2));
        totalFieldCount := totalFieldCount st + 3 |}
  /\ (forall st0,
        aligned_steps prodReportingPeriod stageReportingPeriod year st0 =
        (st3 ← scope3_step prodReportingPeriod stageReportingPeriod year
                 (scope2_step prodReportingPeriod stageReportingPeriod year
                    (scope1_step prodReportingPeriod stageReportingPeriod year st0));
         Ok (economy_step prodReportingPeriod stageReportingPeriod year
               (totalEmissions_step prodReportingPeriod stageReportingPeriod year
                  st3)))).
Proof.
  cbv zeta. split; [apply compareEmissions_spec|].
  unfold scope1_step, scope2_step. rewrite !compareEmissions_spec.
  by cbv beta iota.
Qed.

Lemma category_matches_none stageCategories prodCategory :
  (forall c, In c stageCategories -> category c <> category prodCategory) ->
  category_matches stageCategories prodCategory = false.
Proof.
  intros Hno. unfold category_matches.
  destruct (find _ stageCategories) as [c|] eqn:Hfind; [|done].
  apply find_some in Hfind as [Hin Heq]. apply bool_decide_eq_true in Heq.
  by destruct (Hno c Hin).
Qed.

(** C7. For an aligned pair of reporting periods whose scope-3 blocks both
    hold a category collection, [compareScope3] first compares the stated
    totals and then goes through the production categories in order: a
    category whose number no staging category has appends
    "scope3.category=<n>: <year>" to [mismatchedFields]; otherwise its
    total is compared with the total of the (first) staging category of
    that number, and the same label is appended to [matchedFields] when the
    totals are strictly equal and to [mismatchedFields] when they are not.
    The denominator grows by 1 plus the number of production categories. *)
Theorem scope3_categories
    (prodReportingPeriod stageReportingPeriod : ReportingPeriod)
    (prodCategories stageCategories : list Category) (year : string)
    (st : LoopState) :
  emissions prodReportingPeriod ?. scope3 ?. categories = val prodCategories ->
  emissions stageReportingPeriod ?. scope3 ?. categories = val stageCategories ->
  let prodScope3 := emissions prodReportingPeriod ?. scope3 in
  let stageScope3 := emissions stageReportingPeriod ?. scope3 in
  let label c :=
    "scope3.category=" +:+ Number_toString (category c) +:+ ": " +:+ year in
  let same c :=
    match find (fun cat => bool_decide (category cat = category c)) stageCategories with
    | Some stageCategory => strict_eq (category_total c) (category_total stageCategory)
    | None => false
    end in
  let stated :=
    compareScope3_stated prodScope3 stageScope3 year (comparisonResult st, 0) in
  scope3_step prodReportingPeriod stageReportingPeriod year st =
    Ok {| comparisonResult :=
            add_entries (map label (List.filter same prodCategories))
              (map label (List.filter (fun c => negb (same c)) prodCategories))
              (fst stated);
          matchedFieldCount :=
            matchedFieldCount st + snd stated
            + Z.of_nat (length (List.filter same prodCategories));
          totalFieldCount :=
            totalFieldCount st + (Z.of_nat (length prodCategories) + 1) |}
  /\ (forall c,
        (forall cat, In cat stageCategories -> category cat <> category c) ->
        same c = false).
Proof.
  intros Hp Hs. cbv zeta. split.
  - unfold scope3_step. rewrite compareScope3_spec.
    cbn [mbind result_bind bind]. rewrite Hp. cbn [optprop].
    rewrite or_zero_length, compareScope3_stated_spec. cbn [fst snd].
    unfold scope3_matched, scope3_mismatched, categories_matched,
      categories_mismatched.
    rewrite Hp, Hs, add_entries_add_entries, length_app, length_map.
    fold (category_matches stageCategories).
    do 2 f_equal. lia.
  - apply category_matches_none.
Qed.

Lemma find_none_iff {A : Type} (f : A -> bool) (l : list A) :
  (forall x, In x l -> f x = false) -> find f l = None.
Proof.
  induction l as [|x l IH]; intros Hf; [done|]. cbn.
  rewrite (Hf x) by (by left). apply IH. intros y Hy. apply Hf. by right.
Qed.

(** C8. A production reporting period whose year no staging reporting
    period of the aligned company has appends "Reporting period: <year>"
    to [mismatchedFields] and changes nothing else: [matchedFields],
    [matchedFieldCount] and [totalFieldCount] stay as they were. *)
Theorem missing_period (stageCompany : Company) (st : LoopState)
    (prodReportingPeriod : ReportingPeriod) :
  (forall rp, In rp (reportingPeriods stageCompany) ->
              formatYear (endDate rp) <> formatYear (endDate prodReportingPeriod)) ->
  exists st',
    comparePeriod stageCompany st prodReportingPeriod = Ok st'
    /\ mismatchedFields (comparisonResult st') =
       mismatchedFields (comparisonResult st)
       ++ [EntryString
             ("Reporting period: " +:+ formatYear (endDate prodReportingPeriod))]
    /\ matchedFields (comparisonResult st') = matchedFields (comparisonResult st)
    /\ matchedFieldCount st' = matchedFieldCount st
    /\ totalFieldCount st' = totalFieldCount st.
Proof.
  intros Hno. unfold comparePeriod. rewrite find_none_iff.
  - eexists. split; [reflexivity|]. by cbn.
  - intros rp Hrp. apply String.eqb_neq. by apply Hno.
Qed.



Lemma is_defined_false {A : Type} (a : js A) : is_defined a = false <-> a = undefined.
Proof. destruct a; cbn; split; congruence. Qed.





(** *** The CSV rows *)

Lemma inStaging_company_result stagingData prodCompany :
  inStaging (company_result stagingData prodCompany) = undefined.
Proof.
  unfold company_result.
  destruct (stage_company stagingData prodCompany); [|done].
  by rewrite inStaging_finish.
Qed.

Lemma result_name_company_result stagingData prodCompany :
  result_name (company_result stagingData prodCompany) = name prodCompany.
Proof.
  unfold company_result.
  destruct (stage_company stagingData prodCompany); [|done].
  by rewrite result_name_finish.
Qed.

(** C10. [compareData] leaves [inStaging] undefined on every result it
    returns, so the row that [generateCSV] builds for any production
    company, also one that staging has, shows "No" in the [inStaging]
    column. *)
Theorem inStaging_column (stagingData productionData : list Company) :
  exists results,
    compareData stagingData productionData = Ok results
    /\ Forall (fun r => inStaging r = undefined) results
    /\ Forall2
         (fun prodCompany row =>
            csv_name row = name prodCompany /\ csv_inStaging row = "No")
         productionData (generateCSV results).
Proof.
  exists (map (company_result stagingData) productionData).
  split; [apply compareData_spec|]. split.
  - apply Forall_map, Forall_forall. intros prodCompany _.
    apply inStaging_company_result.
  - unfold generateCSV. rewrite map_map. apply Forall2_map_self.
    intros prodCompany _. unfold csvRow. cbn [csv_name csv_inStaging].
    by rewrite inStaging_company_result, result_name_company_result.
Qed.

Lemma mismatchedMap_of_snoc l e :
  mismatchedMap_of (l ++ [e]) = <[entry_key e := entry_values e]> (mismatchedMap_of l).
Proof. unfold mismatchedMap_of. by rewrite fold_left_app. Qed.

Lemma mismatchedMap_of_lookup l k :
  mismatchedMap_of l !! k =
  entry_values <$> find (fun e => String.eqb (entry_key e) k) (rev l).
Proof.
  induction l as [|e l IH] using rev_ind.
  - cbn. apply lookup_empty.
  - rewrite mismatchedMap_of_snoc, rev_app_distr. cbn [rev app find].
    destruct (String.eqb_spec (entry_key e) k) as [->|Hne].
    + by rewrite lookup_insert_eq.
    + by rewrite lookup_insert_ne.
Qed.

Lemma startsWith_nonempty s p : startsWith s p = true -> p <> "" -> s <> "".
Proof. intros Hs Hp ->. destruct p; [done|discriminate Hs]. Qed.

Lemma resolveMatchOrDifference_spec fieldName mismatched matched :
  fieldName <> "" ->
  resolveMatchOrDifference fieldName (mismatchedMap_of mismatched) matched =
  match find (fun e => String.eqb (entry_key e) fieldName) (rev mismatched) with
  | Some e =>
      "Production: " +:+ or_NA (entry_production e) +:+
      ", Staging: " +:+ or_NA (entry_staging e)
  | None =>
      if existsb (fun m => startsWith m fieldName) matched then "Yes" else "N/A"
  end.
Proof.
  intros Hne. unfold resolveMatchOrDifference.
  rewrite mismatchedMap_of_lookup.
  destruct (find _ (rev mismatched)) as [e|]; [done|]. cbn [fmap option_fmap option_map].
  induction matched as [|m ms IH]; [done|]. cbn [find existsb].
  destruct (startsWith m fieldName) eqn:Hm; [|done]. cbn [orb].
  destruct (String.eqb_spec m ""); [|done].
  by destruct (startsWith_nonempty m fieldName Hm Hne).
Qed.

Lemma find_entry_strings (mismatched : list string) k :
  k <> "undefined" ->
  find (fun e => String.eqb (entry_key e) k) (rev (map EntryString mismatched)) = None.
Proof.
  intros Hk. apply find_none_iff. intros e He.
  apply in_rev, in_map_iff in He as (s & <- & _).
  apply String.eqb_neq. cbn. congruence.
Qed.

Lemma mismatchedFields_company_result stagingData prodCompany :
  exists mismatched,
    mismatchedFields (company_result stagingData prodCompany) =
    map EntryString mismatched.
Proof.
  unfold company_result.
  destruct (stage_company stagingData prodCompany) as [sc|].
  - rewrite mismatchedFields_finish. cbn. by eexists.
  - by exists ["Company does not exist in staging"].
Qed.

(** X18. What the scoped columns hold for the results of [compareData]:
    the mismatch entries are strings, which [generateCSV] files under the key
    "undefined", so that a column is "Yes" when a matched label starts with
    its name and "N/A" otherwise, whatever mismatches were recorded. *)
Theorem scoped_columns_of_compareData (stagingData productionData : list Company) :
  exists results,
    compareData stagingData productionData = Ok results
    /\ Forall
         (fun r =>
            let column fieldName :=
              if existsb (fun m => startsWith m fieldName) (matchedFields r)
              then "Yes" else "N/A" in
            csv_scope1 (csvRow r) = column "scope1"
            /\ csv_scope2 (csvRow r) = column "scope2"
            /\ csv_scope3 (csvRow r) = column "scope3"
            /\ csv_employees (csvRow r) = column "employees"
            /\ csv_economy (csvRow r) = column "economy")
         results.
Proof.
  exists (map (company_result stagingData) productionData).
  split; [apply compareData_spec|].
  apply Forall_map, Forall_forall. intros prodCompany _. cbv zeta.
  destruct (mismatchedFields_company_result stagingData prodCompany) as [mm Hmm].
  unfold csvRow.
  cbn [csv_scope1 csv_scope2 csv_scope3 csv_employees csv_economy].
  rewrite Hmm, !resolveMatchOrDifference_spec, !find_entry_strings by done.
  done.
Qed.

(** *** Further properties of the comparators *)

Lemma opt_entry_eq b1 b2 l1 l2 :
  b1 = b2 -> (b1 = true -> l1 = l2) -> opt_entry b1 l1 = opt_entry b2 l2.
Proof. intros <- Hl. destruct b1; cbn; [by rewrite Hl|done]. Qed.

Lemma strict_eq_sym {A : Type} `{EqDecision A} (a b : js A) :
  strict_eq a b = strict_eq b a.
Proof.
  destruct (strict_eq a b) eqn:Hab; symmetry.
  - apply strict_eq_true. symmetry. by apply strict_eq_true.
  - apply strict_eq_false. intros ->. apply strict_eq_false in Hab. by apply Hab.
Qed.

Lemma value_matches_sym a b : value_matches a b = value_matches b a.
Proof.
  unfold value_matches. rewrite (strict_eq_sym b a).
  destruct (strict_eq a b) eqn:Hab; [|done].
  apply strict_eq_true in Hab. by rewrite Hab.
Qed.

Lemma value_differs_sym a b : value_differs a b = value_differs b a.
Proof. unfold value_differs. by rewrite strict_eq_sym. Qed.

Lemma field_matches_sym p s f : field_matches p s f = field_matches s p f.
Proof.
  unfold field_matches. rewrite (strict_eq_sym (s ?. scope_get f)).
  by rewrite (andb_comm (is_defined (p ?. scope_get f))).
Qed.

Lemma field_differs_sym p s f : field_differs p s f = field_differs s p f.
Proof.
  unfold field_differs. rewrite (strict_eq_sym (s ?. scope_get f)).
  by rewrite (andb_comm (is_defined (p ?. scope_get f))).
Qed.

(** X1. [compareEconomy] compares [employees.value] when both sides define
    it, and the turnover when both sides define [turnover.value]; the
    turnover matches only when value and currency are both strictly equal.
    The count it returns is the number of matches it appended; it appends
    at most two entries; and the year it is given plays no part: the
    labels of the economy entries do not carry it. *)
Theorem economy_comparison (prodEconomy stageEconomy : js Economy)
    (cr : ComparisonResult) (year year' : string) :
  let pe := prodEconomy ?. employees ?. employees_value in
  let se := stageEconomy ?. employees ?. employees_value in
  let pv := prodEconomy ?. turnover ?. turnover_value in
  let pc := prodEconomy ?. turnover ?. currency in
  let sv := stageEconomy ?. turnover ?. turnover_value in
  let sc := stageEconomy ?. turnover ?. currency in
  let matched :=
    opt_entry (is_defined pe && is_defined se && strict_eq pe se)
      ("employees: " +:+ interp_num pe)
    ++ opt_entry
         (is_defined pv && is_defined sv && (strict_eq pv sv && strict_eq pc sc))
         ("economy: " +:+ formatCurrency pv pc) in
  let mismatched :=
    opt_entry (is_defined pe && is_defined se && negb (strict_eq pe se))
      ("employees: Production(" +:+ interp_num pe +:+
       ") vs Staging(" +:+ interp_num se +:+ ")")
    ++ opt_entry
         (is_defined pv && is_defined sv
          && negb (strict_eq pv sv && strict_eq pc sc))
         ("economy: Production(" +:+ formatCurrency pv pc +:+
          ") vs Staging(" +:+ formatCurrency sv sc +:+ ")") in
  compareEconomy prodEconomy stageEconomy cr year =
    (add_entries matched mismatched cr, Z.of_nat (length matched))
  /\ compareEconomy prodEconomy stageEconomy cr year' =
     compareEconomy prodEconomy stageEconomy cr year
  /\ (length matched + length mismatched <= 2)%nat.
Proof.
  cbv zeta. split; [apply compareEconomy_spec|]. split.
  - by rewrite !compareEconomy_spec.
  - rewrite !length_app.
    destruct (is_defined (prodEconomy ?. employees ?. employees_value)
              && is_defined (stageEconomy ?. employees ?. employees_value));
      destruct (strict_eq (prodEconomy ?. employees ?. employees_value) _);
      destruct (is_defined (prodEconomy ?. turnover ?. turnover_value)
                && is_defined (stageEconomy ?. turnover ?. turnover_value));
      destruct (strict_eq (prodEconomy ?. turnover ?. turnover_value) _
                && strict_eq (prodEconomy ?. turnover ?. currency) _);
      cbn; lia.
Qed.

(** X2. Exchanging the production and the staging argument changes nothing
    in [compareEmissions] and in [compareTotalEmissions]: the same entries
    are appended and the same count is returned. [compareEconomy] then
    still returns the same count and appends the same matched entries
    (its mismatch labels name the two sides). *)
Theorem comparison_symmetry (scopeName : string) (prodScope stageScope : js Scope)
    (prodEmissions stageEmissions : js Emissions)
    (prodEconomy stageEconomy : js Economy)
    (cr : ComparisonResult) (year : string) :
  compareEmissions scopeName prodScope stageScope cr year =
  compareEmissions scopeName stageScope prodScope cr year
  /\ compareTotalEmissions prodEmissions stageEmissions cr year =
     compareTotalEmissions stageEmissions prodEmissions cr year
  /\ snd (compareEconomy prodEconomy stageEconomy cr year) =
     snd (compareEconomy stageEconomy prodEconomy cr year)
  /\ matchedFields (fst (compareEconomy prodEconomy stageEconomy cr year)) =
     matchedFields (fst (compareEconomy stageEconomy prodEconomy cr year)).
Proof.
  split; [|split].
  - rewrite !compareEmissions_spec. unfold emissions_matched, emissions_mismatched.
    rewrite (filter_ext _ _ (field_matches_sym prodScope stageScope)).
    by rewrite (filter_ext _ _ (field_differs_sym prodScope stageScope)).
  - rewrite !compareTotalEmissions_spec.
    unfold totalEmissions_matched, totalEmissions_mismatched.
    rewrite (value_matches_sym (prodEmissions ?. calculatedTotalEmissions)).
    rewrite (value_matches_sym (prodEmissions ?. statedTotalEmissions ?. stated_total)).
    rewrite (value_differs_sym (prodEmissions ?. calculatedTotalEmissions)).
    by rewrite (value_differs_sym (prodEmissions ?. statedTotalEmissions ?. stated_total)).
  - assert (economy_matched prodEconomy stageEconomy =
            economy_matched stageEconomy prodEconomy) as Hm.
    { unfold economy_matched, employees_defined, employees_equal,
        turnover_defined, turnover_equal. f_equal.
      - apply opt_entry_eq.
        + rewrite (strict_eq_sym (stageEconomy ?. employees ?. employees_value)).
          by rewrite (andb_comm
                        (is_defined (prodEconomy ?. employees ?. employees_value))).
        + rewrite !andb_true_iff. intros [_ He].
          apply strict_eq_true in He. by rewrite He.
      - apply opt_entry_eq.
        + rewrite (strict_eq_sym (stageEconomy ?. turnover ?. turnover_value)).
          rewrite (strict_eq_sym (stageEconomy ?. turnover ?. currency)).
          by rewrite (andb_comm
                        (is_defined (prodEconomy ?. turnover ?. turnover_value))).
        + rewrite !andb_true_iff. intros [_ [Hv Hc]].
          apply strict_eq_true in Hv, Hc. by rewrite Hv, Hc. }
    rewrite !compareEconomy_spec. cbn [fst snd add_entries matchedFields].
    by rewrite Hm.
Qed.

(** X3. When the loop over the reporting periods of a company ends,
    [matchedFieldCount] is the number of entries of [matchedFields]: each
    increment of the counter goes with one push. Every entry of
    [mismatchedFields] is a plain string, and the accuracy computed from
    the counters is therefore within 0.005 of the percentage that the
    length of [matchedFields] takes of a positive [totalFieldCount]. *)
Theorem matched_counter_invariant (prodCompany stageCompany : Company) :
  exists st,
    comparePeriods prodCompany stageCompany = Ok st
    /\ matchedFieldCount st = Z.of_nat (length (matchedFields (comparisonResult st)))
    /\ matchedFields (finish st) = matchedFields (comparisonResult st)
    /\ Forall (fun e => exists label, e = EntryString label)
         (mismatchedFields (finish st))
    /\ (0 < totalFieldCount st ->
        20000 * Z.of_nat (length (matchedFields (finish st))) - totalFieldCount st
        <= 2 * totalFieldCount st * accuracy (finish st)
        <= 20000 * Z.of_nat (length (matchedFields (finish st)))
           + totalFieldCount st).
Proof.
  eexists. split; [apply comparePeriods_spec|].
  rewrite matchedFields_finish, mismatchedFields_finish, accuracy_finish.
  cbn [comparisonResult matchedFieldCount totalFieldCount matchedFields
       mismatchedFields add_entries fresh_result app].
  split; [done|]. split; [done|]. split.
  - apply Forall_map, Forall_forall. intros label _. by exists label.
  - intros Hpos.
    destruct (Z.ltb_spec 0 (company_total prodCompany stageCompany)); [|lia].
    by apply percentage_toFixed2_bracket.
Qed.

(** X4. The note of a result tells the three outcomes apart: it is "Exists
    in production but not in staging" exactly for a production company
    that staging does not have; for a company that staging has it is "All
    data matches between production and staging" when [mismatchedFields]
    is empty and "Partial mismatch or missing data between production and
    staging" when it is not. *)
Theorem note_of_result (stagingData productionData : list Company) :
  exists results,
    compareData stagingData productionData = Ok results
    /\ Forall2
         (fun prodCompany r =>
            match stage_company stagingData prodCompany with
            | None =>
                note r = val "Exists in production but not in staging"
                /\ mismatchedFields r <> []
            | Some _ =>
                (mismatchedFields r = []
                 /\ note r = val "All data matches between production and staging")
                \/ (mismatchedFields r <> []
                    /\ note r =
                       val "Partial mismatch or missing data between production and staging")
            end)
         productionData results
    /\ Forall
         (fun r =>
            note r = val "All data matches between production and staging"
            <-> mismatchedFields r = [])
         results.
Proof.
  exists (map (company_result stagingData) productionData).
  split; [apply compareData_spec|].
  assert (forall prodCompany,
            match stage_company stagingData prodCompany with
            | None =>
                note (company_result stagingData prodCompany) =
                  val "Exists in production but not in staging"
                /\ mismatchedFields (company_result stagingData prodCompany) <> []
            | Some _ =>
                (mismatchedFields (company_result stagingData prodCompany) = []
                 /\ note (company_result stagingData prodCompany) =
                    val "All data matches between production and staging")
                \/ (mismatchedFields (company_result stagingData prodCompany) <> []
                    /\ note (company_result stagingData prodCompany) =
                       val "Partial mismatch or missing data between production and staging")
            end) as Hnote.
  { intros prodCompany. unfold company_result.
    destruct (stage_company stagingData prodCompany) as [sc|]; [|done].
    rewrite mismatchedFields_finish, note_finish.
    destruct (mismatchedFields _) as [|e es]; cbn; [by left|by right]. }
  split.
  - apply Forall2_map_self. intros prodCompany _. apply Hnote.
  - apply Forall_map, Forall_forall. intros prodCompany _.
    specialize (Hnote prodCompany).
    destruct (stage_company stagingData prodCompany).
    + destruct Hnote as [[Hm Hn]|[Hm Hn]]; rewrite Hn; split; try done;
        intros Heq; discriminate Heq.
    + destruct Hnote as [Hn Hm]. rewrite Hn. split; try done;
        intros Heq; discriminate Heq.
Qed.

(** X5. [compareData] treats the production companies one by one: the
    results for a concatenation of production lists are the concatenation
    of the results. An empty production list gives no result, whatever
    staging holds, and against an empty staging list every production
    company gets the result of an absent company. *)
Theorem compareData_app (stagingData production1 production2 : list Company) :
  exists results1 results2,
    compareData stagingData production1 = Ok results1
    /\ compareData stagingData production2 = Ok results2
    /\ compareData stagingData (production1 ++ production2) =
       Ok (results1 ++ results2)
    /\ compareData stagingData [] = Ok []
    /\ compareData [] production1 = Ok (map absent_result production1).
Proof.
  exists (map (company_result stagingData) production1),
    (map (company_result stagingData) production2).
  rewrite !compareData_spec, map_app. repeat split.
Qed.

Lemma find_skip {A : Type} (f : A -> bool) (before after : list A) (x : A) :
  f x = false -> find f (before ++ x :: after) = find f (before ++ after).
Proof.
  intros Hx. induction before as [|y before IH]; cbn.
  - by rewrite Hx.
  - by destruct (f y).
Qed.

Lemma find_shadowed {A : Type} (f : A -> bool) (before after : list A) (x : A) :
  (exists y, In y before /\ f y = true) ->
  find f (before ++ x :: after) = find f (before ++ after).
Proof.
  intros (y & Hy & Hfy). induction before as [|z before IH]; [destruct Hy|].
  cbn. destruct (f z) eqn:Hz; [done|].
  destruct Hy as [->|Hy]; [congruence|]. by apply IH.
Qed.

(** X6. Of several staging companies with the same [wikidataId] only the
    first counts: a staging company that comes after another one with its
    [wikidataId] can be removed without changing any result. *)
Theorem duplicate_staging_company
    (before after productionData : list Company) (c : Company) :
  (exists c', In c' before /\ wikidataId c' = wikidataId c) ->
  compareData (before ++ c :: after) productionData =
  compareData (before ++ after) productionData.
Proof.
  intros (c' & Hin & Hid). rewrite !compareData_spec. f_equal.
  apply map_ext. intros prodCompany. unfold company_result, stage_company.
  destruct (String.eqb (wikidataId c) (wikidataId prodCompany)) eqn:Hc.
  - rewrite find_shadowed; [done|]. exists c'. split; [done|]. by rewrite Hid.
  - by rewrite find_skip.
Qed.

Lemma stage_period_with_reportingPeriods periods stageCompany prodReportingPeriod :
  stage_period (with_reportingPeriods periods stageCompany) prodReportingPeriod =
  find (fun rp =>
          String.eqb (formatYear (endDate rp))
            (formatYear (endDate prodReportingPeriod)))
    periods.
Proof. reflexivity. Qed.

Lemma comparePeriods_ext prodCompany stageCompany stageCompany' :
  (forall rp, In rp (reportingPeriods prodCompany) ->
              stage_period stageCompany rp = stage_period stageCompany' rp) ->
  comparePeriods prodCompany stageCompany = comparePeriods prodCompany stageCompany'.
Proof.
  intros Hext. rewrite !comparePeriods_spec.
  unfold company_matched, company_mismatched, company_total.
  assert (flat_map (period_matched stageCompany) (reportingPeriods prodCompany) =
          flat_map (period_matched stageCompany') (reportingPeriods prodCompany)) as ->.
  { rewrite !flat_map_concat_map. f_equal. apply map_ext_in. intros rp Hrp.
    unfold period_matched. by rewrite Hext. }
  assert (flat_map (period_mismatched stageCompany) (reportingPeriods prodCompany) =
          flat_map (period_mismatched stageCompany') (reportingPeriods prodCompany)) as ->.
  { rewrite !flat_map_concat_map. f_equal. apply map_ext_in. intros rp Hrp.
    unfold period_mismatched. by rewrite Hext. }
  assert (map (period_total stageCompany) (reportingPeriods prodCompany) =
          map (period_total stageCompany') (reportingPeriods prodCompany)) as ->.
  { apply map_ext_in. intros rp Hrp. unfold period_total. by rewrite Hext. }
  reflexivity.
Qed.

(** X7. A staging reporting period whose year no production reporting
    period of the company has is never looked at: removing it from the
    staging company changes neither the entries nor the counters. *)
Theorem staging_only_period (prodCompany stageCompany : Company)
    (before after : list ReportingPeriod) (extra : ReportingPeriod) :
  (forall rp, In rp (reportingPeriods prodCompany) ->
              formatYear (endDate rp) <> formatYear (endDate extra)) ->
  comparePeriods prodCompany
    (with_reportingPeriods (before ++ extra :: after) stageCompany) =
  comparePeriods prodCompany (with_reportingPeriods (before ++ after) stageCompany).
Proof.
  intros Hyear. apply comparePeriods_ext. intros rp Hrp.
  rewrite !stage_period_with_reportingPeriods. apply find_skip.
  apply String.eqb_neq. intros Heq. by apply (Hyear rp Hrp).
Qed.

(** X8. Reporting periods are aligned by the year of their end date only:
    moving the end date of a production period to another date of the same
    year changes nothing in what [comparePeriod] records. *)
Theorem date_within_year (stageCompany : Company) (st : LoopState)
    (prodReportingPeriod : ReportingPeriod) (date : string) :
  formatYear date = formatYear (endDate prodReportingPeriod) ->
  comparePeriod stageCompany st (with_endDate date prodReportingPeriod) =
  comparePeriod stageCompany st prodReportingPeriod.
Proof.
  intros Hyear. unfold comparePeriod. cbn [endDate with_endDate]. rewrite Hyear.
  destruct (find _ (reportingPeriods stageCompany)) as [srp|]; [|done].
  reflexivity.
Qed.

(** X9. When the staging side of an aligned pair has no scope-3 category
    collection while production lists categories, [compareScope3] records
    nothing about the categories, neither matches nor mismatches, and the
    denominator still grows by their number plus 1. *)
Theorem categories_missing_in_staging
    (prodReportingPeriod stageReportingPeriod : ReportingPeriod)
    (prodCategories : list Category) (year : string) (st : LoopState) :
  emissions prodReportingPeriod ?. scope3 ?. categories = val prodCategories ->
  truthy (emissions stageReportingPeriod ?. scope3 ?. categories) = false ->
  let stated :=
    compareScope3_stated (emissions prodReportingPeriod ?. scope3)
      (emissions stageReportingPeriod ?. scope3) year (comparisonResult st, 0) in
  scope3_step prodReportingPeriod stageReportingPeriod year st =
  Ok {| comparisonResult := fst stated;
        matchedFieldCount := matchedFieldCount st + snd stated;
        totalFieldCount :=
          totalFieldCount st + (Z.of_nat (length prodCategories) + 1) |}.
Proof.
  intros Hp Hs. cbv zeta. unfold scope3_step. rewrite compareScope3_spec.
  cbn [mbind result_bind bind]. rewrite Hp. cbn [optprop].
  rewrite or_zero_length, compareScope3_stated_spec. cbn [fst snd].
  unfold scope3_matched, scope3_mismatched, categories_matched,
    categories_mismatched.
  rewrite Hp.
  destruct (emissions stageReportingPeriod ?. scope3 ?. categories);
    try discriminate Hs; rewrite !app_nil_r; do 2 f_equal; lia.
Qed.

(** X10. The denominator that the loop over the reporting periods of a
    company ends with is, summed over the production periods, 9 plus the
    number of production scope-3 categories for a period whose year
    staging has, and 0 for a period whose year staging does not have. It
    depends on no value of either dataset. *)
Theorem denominator_formula (prodCompany stageCompany : Company) :
  exists st,
    comparePeriods prodCompany stageCompany = Ok st
    /\ totalFieldCount st =
       sum_Z
         (map
            (fun prodReportingPeriod =>
               match
                 find (fun rp =>
                         String.eqb (formatYear (endDate rp))
                           (formatYear (endDate prodReportingPeriod)))
                   (reportingPeriods stageCompany)
               with
               | Some _ =>
                   9 + match emissions prodReportingPeriod ?. scope3 ?. categories with
                       | val prodCategories => Z.of_nat (length prodCategories)
                       | _ => 0
                       end
               | None => 0
               end)
            (reportingPeriods prodCompany)).
Proof.
  eexists. split; [apply comparePeriods_spec|].
  cbn [totalFieldCount]. unfold company_total. f_equal. apply map_ext.
  intros rp. unfold period_total, stage_period.
  destruct (find _ (reportingPeriods stageCompany)); [|done].
  unfold aligned_total.
  destruct (emissions rp ?. scope3 ?. categories) as [| |cs] eqn:Hc.
  - unfold categories_count. rewrite Hc. cbn. lia.
  - unfold categories_count. rewrite Hc. cbn. lia.
  - rewrite (categories_count_val rp cs Hc). lia.
Qed.

(** *** Further properties of the CSV rows *)

Lemma mismatchedMap_of_strings (mismatched : list string) :
  mismatchedMap_of (map EntryString mismatched) =
  if Nat.eqb (length mismatched) 0 then ∅ else {[ "undefined" := ("N/A", "N/A") ]}.
Proof.
  induction mismatched as [|label labels IH] using rev_ind; [done|].
  rewrite map_app. cbn [map]. rewrite mismatchedMap_of_snoc, IH.
  rewrite length_app. cbn [length].
  replace (length labels + 1)%nat with (S (length labels)) by lia. cbn [Nat.eqb].
  change (entry_key (EntryString label)) with "undefined".
  change (entry_values (EntryString label)) with ("N/A", "N/A").
  destruct (Nat.eqb (length labels) 0).
  - apply insert_empty.
  - apply insert_singleton_eq.
Qed.

(** X11. For every result of [compareData] the map that [generateCSV]
    builds from [mismatchedFields] holds nothing of the mismatches: it is
    empty when there is no mismatch and otherwise has the single key
    "undefined", with "N/A" for both sides. *)
Theorem mismatched_map_of_compareData (stagingData productionData : list Company) :
  exists results,
    compareData stagingData productionData = Ok results
    /\ Forall
         (fun r =>
            mismatchedMap_of (mismatchedFields r) =
            if Nat.eqb (length (mismatchedFields r)) 0
            then ∅
            else {[ "undefined" := ("N/A", "N/A") ]})
         results.
Proof.
  exists (map (company_result stagingData) productionData).
  split; [apply compareData_spec|].
  apply Forall_map, Forall_forall. intros prodCompany _.
  destruct (mismatchedFields_company_result stagingData prodCompany) as [mm Hmm].
  rewrite Hmm, length_map. apply mismatchedMap_of_strings.
Qed.

Lemma find_rev_last {A : Type} (f : A -> bool) (before after : list A) (x : A) :
  f x = true -> (forall y, In y after -> f y = false) ->
  find f (rev (before ++ x :: after)) = Some x.
Proof.
  intros Hx Hafter. rewrite rev_app_distr. cbn [rev]. rewrite <- app_assoc.
  cbn [app].
  assert (forall l, (forall y, In y l -> f y = false) ->
                    forall rest, find f (l ++ rest) = find f rest) as Hskip.
  { induction l as [|y l IH]; intros Hl rest; [done|]. cbn.
    rewrite (Hl y) by (by left). apply IH. intros z Hz. apply Hl. by right. }
  rewrite Hskip.
  - cbn. by rewrite Hx.
  - intros y Hy. apply Hafter. by apply in_rev.
Qed.

(** X12. Entries of [mismatchedFields] that carry [field], [production]
    and [staging]: in each scoped column, when some entry has the column's
    name as its [field], the column shows the values of the last such
    entry ("N/A" for a value that is missing or empty) whether or not a
    matched label starts with the column's name; when no entry has it, the
    column is "Yes" if a matched label starts with the column's name and
    "N/A" otherwise. *)
Theorem structured_entry_precedence (r : ComparisonResult) (column : string)
    (get : CsvRow -> string) :
  In (column, get) scoped_columns ->
  (forall before e after,
     mismatchedFields r = before ++ e :: after ->
     interp_string (entry_field e) = column ->
     (forall e', In e' after -> interp_string (entry_field e') <> column) ->
     get (csvRow r) =
     "Production: " +:+ or_NA (entry_production e) +:+
     ", Staging: " +:+ or_NA (entry_staging e))
  /\ ((forall e, In e (mismatchedFields r) ->
                 interp_string (entry_field e) <> column) ->
      get (csvRow r) =
      yes_or_NA (existsb (fun m => startsWith m column) (matchedFields r))).
Proof.
  intros Hcol.
  assert (column <> "" /\
          get (csvRow r) =
          resolveMatchOrDifference column (mismatchedMap_of (mismatchedFields r))
            (matchedFields r)) as [Hne ->].
  { cbn in Hcol.
    destruct Hcol as [Hc|[Hc|[Hc|[Hc|[Hc|[]]]]]]; injection Hc as <- <-; by split. }
  rewrite resolveMatchOrDifference_spec by done. split.
  - intros before e after -> Hkey Hafter.
    rewrite (find_rev_last _ before after e); [done| |].
    + by apply String.eqb_eq.
    + intros e' He'. apply String.eqb_neq. by apply Hafter.
  - intros Hnone. rewrite find_none_iff; [done|].
    intros e He. apply String.eqb_neq. apply Hnone. by apply in_rev.
Qed.

Lemma existsb_map {A B : Type} (f : B -> bool) (g : A -> B) (l : list A) :
  existsb f (map g l) = existsb (fun x => f (g x)) l.
Proof. induction l as [|x l IH]; cbn; [done|]. by rewrite IH. Qed.

Lemma existsb_filter {A : Type} (f p : A -> bool) (l : list A) :
  existsb f (List.filter p l) = existsb (fun x => p x && f x) l.
Proof.
  induction l as [|x l IH]; cbn; [done|].
  destruct (p x); cbn; by rewrite IH.
Qed.

Lemma existsb_flat_map {A B : Type} (f : B -> bool) (g : A -> list B) (l : list A) :
  existsb f (flat_map g l) = existsb (fun x => existsb f (g x)) l.
Proof. induction l as [|x l IH]; cbn; [done|]. by rewrite existsb_app, IH. Qed.

Lemma existsb_ext {A : Type} (f g : A -> bool) (l : list A) :
  (forall x, f x = g x) -> existsb f l = existsb g l.
Proof. intros Hfg. induction l as [|x l IH]; cbn; [done|]. by rewrite Hfg, IH. Qed.

Lemma existsb_opt_entry (f : string -> bool) b label :
  existsb f (opt_entry b label) = b && f label.
Proof. destruct b; cbn; [by rewrite orb_false_r|done]. Qed.

Lemma column_of_emissions_matched scopeName column prodScope stageScope year b :
  (forall f, startsWith (scope_label scopeName f year) column = b) ->
  existsb (fun m => startsWith m column)
    (emissions_matched scopeName prodScope stageScope year) =
  b && existsb (field_matches prodScope stageScope) fields.
Proof.
  intros Hb. unfold emissions_matched. rewrite existsb_map, existsb_filter.
  rewrite (existsb_ext _ (fun f => b && field_matches prodScope stageScope f)).
  - destruct b; [done|]. cbn. induction fields as [|f l IH]; [done|]. by cbn.
  - intros f. rewrite Hb. apply andb_comm.
Qed.

Lemma column_of_categories_matched column prodScope3 stageScope3 year b :
  (forall c, startsWith (category_label year c) column = b) ->
  existsb (fun m => startsWith m column)
    (categories_matched prodScope3 stageScope3 year) =
  b && match prodScope3 ?. categories, stageScope3 ?. categories with
       | val prodCategories, val stageCategories =>
           existsb (category_matches stageCategories) prodCategories
       | _, _ => false
       end.
Proof.
  intros Hb. unfold categories_matched.
  destruct (prodScope3 ?. categories) as [| |pcs]; try (cbn; by rewrite andb_false_r).
  destruct (stageScope3 ?. categories) as [| |scs]; try (cbn; by rewrite andb_false_r).
  rewrite existsb_map, existsb_filter.
  rewrite (existsb_ext _ (fun c => b && category_matches scs c)).
  - destruct b; [done|]. cbn. induction pcs as [|c l IH]; [done|]. by cbn.
  - intros c. rewrite Hb. apply andb_comm.
Qed.

(** Whether a label starts with a column name is decided by the literal
    the label begins with. *)
Ltac eval_startsWith :=
  repeat match goal with
         | |- context [startsWith ?label ?column] =>
             let b := eval vm_compute in (startsWith label column) in
             change (startsWith label column) with b
         end.

Ltac column_of_aligned scope1_starts scope2_starts category_starts :=
  intros; unfold aligned_matched; rewrite !existsb_app;
  rewrite (column_of_emissions_matched "scope1" _ _ _ _ scope1_starts)
    by (intros; reflexivity);
  rewrite (column_of_emissions_matched "scope2" _ _ _ _ scope2_starts)
    by (intros; reflexivity);
  unfold scope3_matched, totalEmissions_matched, economy_matched,
    scope3_stated_label;
  rewrite !existsb_app, !existsb_opt_entry;
  rewrite (column_of_categories_matched _ _ _ _ category_starts)
    by (intros; reflexivity);
  eval_startsWith;
  rewrite ?andb_false_r, ?andb_true_r, ?orb_false_r; cbn [andb orb].

Lemma column_scope1_aligned prodReportingPeriod stageReportingPeriod year :
  existsb (fun m => startsWith m "scope1")
    (aligned_matched prodReportingPeriod stageReportingPeriod year) =
  scope_has_match scope1 prodReportingPeriod stageReportingPeriod.
Proof. column_of_aligned true false false. reflexivity. Qed.

Lemma column_scope2_aligned prodReportingPeriod stageReportingPeriod year :
  existsb (fun m => startsWith m "scope2")
    (aligned_matched prodReportingPeriod stageReportingPeriod year) =
  scope_has_match scope2 prodReportingPeriod stageReportingPeriod.
Proof. column_of_aligned false true false. reflexivity. Qed.

Lemma column_scope3_aligned prodReportingPeriod stageReportingPeriod year :
  existsb (fun m => startsWith m "scope3")
    (aligned_matched prodReportingPeriod stageReportingPeriod year) =
  scope3_has_match prodReportingPeriod stageReportingPeriod.
Proof. column_of_aligned false false true. reflexivity. Qed.

Lemma column_employees_aligned prodReportingPeriod stageReportingPeriod year :
  existsb (fun m => startsWith m "employees")
    (aligned_matched prodReportingPeriod stageReportingPeriod year) =
  employees_has_match prodReportingPeriod stageReportingPeriod.
Proof. column_of_aligned false false false. reflexivity. Qed.

Lemma column_economy_aligned prodReportingPeriod stageReportingPeriod year :
  existsb (fun m => startsWith m "economy")
    (aligned_matched prodReportingPeriod stageReportingPeriod year) =
  turnover_has_match prodReportingPeriod stageReportingPeriod.
Proof. column_of_aligned false false false. reflexivity. Qed.

Lemma column_of_company_matched column test prodCompany stageCompany :
  (forall prp srp year,
     existsb (fun m => startsWith m column) (aligned_matched prp srp year) =
     test prp srp) ->
  existsb (fun m => startsWith m column) (company_matched prodCompany stageCompany) =
  some_aligned_period prodCompany stageCompany test.
Proof.
  intros Htest. unfold company_matched, some_aligned_period.
  rewrite existsb_flat_map. apply existsb_ext. intros rp.
  unfold period_matched. destruct (stage_period stageCompany rp); [|done].
  apply Htest.
Qed.

Lemma column_of_company_result stagingData prodCompany column :
  column <> "" -> column <> "undefined" ->
  resolveMatchOrDifference column
    (mismatchedMap_of (mismatchedFields (company_result stagingData prodCompany)))
    (matchedFields (company_result stagingData prodCompany)) =
  yes_or_NA
    (existsb (fun m => startsWith m column)
       (matchedFields (company_result stagingData prodCompany))).
Proof.
  intros Hne Hundef.
  destruct (mismatchedFields_company_result stagingData prodCompany) as [mm Hmm].
  by rewrite Hmm, resolveMatchOrDifference_spec, find_entry_strings.
Qed.

Lemma matchedFields_company_result stagingData prodCompany :
  matchedFields (company_result stagingData prodCompany) =
  match stage_company stagingData prodCompany with
  | Some stageCompany => company_matched prodCompany stageCompany
  | None => []
  end.
Proof.
  unfold company_result.
  destruct (stage_company stagingData prodCompany); [|done].
  by rewrite matchedFields_finish.
Qed.

(** X13. What the scoped columns of the CSV say about the data. For a
    production company that staging does not have all five are "N/A". For
    a company that staging has, a column is "Yes" as soon as one aligned
    pair of reporting periods has one match of its kind, whatever
    mismatches the same or other periods have, and "N/A" otherwise: a
    scope-1 or scope-2 field defined and equal on both sides; equal stated
    scope-3 totals or a scope-3 category with equal totals; equal
    employees values; equal turnover value and currency. Matches of
    [calculatedTotalEmissions] and [statedTotalEmissions.total] show in no
    column. *)
Theorem csv_columns_meaning (stagingData productionData : list Company) :
  exists results,
    compareData stagingData productionData = Ok results
    /\ Forall2
         (fun prodCompany row =>
            match stage_company stagingData prodCompany with
            | None =>
                csv_scope1 row = "N/A" /\ csv_scope2 row = "N/A"
                /\ csv_scope3 row = "N/A" /\ csv_employees row = "N/A"
                /\ csv_economy row = "N/A"
            | Some stageCompany =>
                let shown test :=
                  yes_or_NA (some_aligned_period prodCompany stageCompany test) in
                csv_scope1 row = shown (scope_has_match scope1)
                /\ csv_scope2 row = shown (scope_has_match scope2)
                /\ csv_scope3 row = shown scope3_has_match
                /\ csv_employees row = shown employees_has_match
                /\ csv_economy row = shown turnover_has_match
            end)
         productionData (generateCSV results).
Proof.
  exists (map (company_result stagingData) productionData).
  split; [apply compareData_spec|].
  unfold generateCSV. rewrite map_map. apply Forall2_map_self.
  intros prodCompany _. unfold csvRow.
  cbn [csv_scope1 csv_scope2 csv_scope3 csv_employees csv_economy].
  rewrite !column_of_company_result by done.
  rewrite matchedFields_company_result.
  destruct (stage_company stagingData prodCompany) as [stageCompany|];
    [|by repeat split].
  cbv zeta.
  rewrite (column_of_company_matched "scope1" (scope_has_match scope1))
    by apply column_scope1_aligned.
  rewrite (column_of_company_matched "scope2" (scope_has_match scope2))
    by apply column_scope2_aligned.
  rewrite (column_of_company_matched "scope3" scope3_has_match)
    by apply column_scope3_aligned.
  rewrite (column_of_company_matched "employees" employees_has_match)
    by apply column_employees_aligned.
  rewrite (column_of_company_matched "economy" turnover_has_match)
    by apply column_economy_aligned.
  by repeat split.
Qed.

(** *** [formatCurrency] *)

Lemma replace_commas_length s : String.length (replace_commas s) = String.length s.
Proof. induction s as [|c s IH]; cbn; [done|]. by rewrite IH. Qed.

Lemma replace_commas_no_comma s :
  ~ In ","%char (list_ascii_of_string (replace_commas s)).
Proof.
  induction s as [|c s IH]; cbn; [tauto|]. intros [Hc|Hc]; [|by apply IH].
  destruct (Ascii.eqb_spec c ","); [discriminate Hc|]. congruence.
Qed.

Lemma replace_commas_id s :
  ~ In ","%char (list_ascii_of_string s) -> replace_commas s = s.
Proof.
  induction s as [|c s IH]; cbn; [done|]. intros Hno.
  destruct (Ascii.eqb_spec c ",") as [->|_]; [tauto|].
  rewrite IH; [done|]. tauto.
Qed.

Lemma replace_commas_map s :
  list_ascii_of_string (replace_commas s) =
  map (fun c => if Ascii.eqb c "," then " "%char else c) (list_ascii_of_string s).
Proof. induction s as [|c s IH]; cbn; [done|]. by rewrite IH. Qed.

(** X14. [formatCurrency] returns the formatted amount, a space and the
    currency. The formatted amount is what the number format returns with
    every comma replaced by a space and every other character left as it
    is, position by position: it has the same length, contains no comma,
    and is what the number format returns when that has no comma. *)
Theorem formatCurrency_commas (amount : js num) (currency : js string) :
  exists number,
    formatCurrency amount currency = number +:+ " " +:+ interp_string currency
    /\ list_ascii_of_string number =
       map (fun c => if Ascii.eqb c "," then " "%char else c)
         (list_ascii_of_string (NumberFormat_format amount))
    /\ String.length number = String.length (NumberFormat_format amount)
    /\ ~ In ","%char (list_ascii_of_string number)
    /\ (~ In ","%char (list_ascii_of_string (NumberFormat_format amount)) ->
        number = NumberFormat_format amount).
Proof.
  exists (replace_commas (NumberFormat_format amount)). split; [done|].
  split; [apply replace_commas_map|].
  split; [apply replace_commas_length|].
  split; [apply replace_commas_no_comma|apply replace_commas_id].
Qed.

(** *** Order, null values, staging-only categories *)

Lemma sum_Z_Permutation l l' : Permutation l l' -> sum_Z l = sum_Z l'.
Proof.
  induction 1 as [|x l l' _ IH|x y l|l l' l'' _ IH1 _ IH2]; cbn.
  - done.
  - fold (sum_Z l) (sum_Z l'). lia.
  - fold (sum_Z l). lia.
  - congruence.
Qed.

(** X15. The two counters and the accuracy of a company do not depend on
    the order in which production lists its reporting periods: the entries
    come in another order, the numbers are the same. *)
Theorem accuracy_order_independent (prodCompany stageCompany : Company)
    (periods : list ReportingPeriod) :
  Permutation (reportingPeriods prodCompany) periods ->
  exists st st',
    comparePeriods prodCompany stageCompany = Ok st
    /\ comparePeriods (with_reportingPeriods periods prodCompany) stageCompany = Ok st'
    /\ matchedFieldCount st' = matchedFieldCount st
    /\ totalFieldCount st' = totalFieldCount st
    /\ accuracy (finish st') = accuracy (finish st)
    /\ Permutation (matchedFields (finish st)) (matchedFields (finish st'))
    /\ Permutation (mismatchedFields (finish st)) (mismatchedFields (finish st')).
Proof.
  intros Hperm. do 2 eexists.
  split; [apply comparePeriods_spec|]. split; [apply comparePeriods_spec|].
  rewrite !accuracy_finish, !matchedFields_finish, !mismatchedFields_finish.
  cbn [comparisonResult matchedFieldCount totalFieldCount matchedFields
       mismatchedFields add_entries fresh_result app].
  unfold company_matched, company_mismatched, company_total.
  cbn [reportingPeriods with_reportingPeriods].
  pose proof (Permutation_flat_map (period_matched stageCompany) Hperm) as Hm.
  pose proof (Permutation_flat_map (period_mismatched stageCompany) Hperm) as Hmm.
  pose proof (sum_Z_Permutation _ _
                (Permutation_map (period_total stageCompany) Hperm)) as Ht.
  pose proof (Permutation_length Hm) as Hlen.
  rewrite <- Ht, <- Hlen. repeat split; try done.
  by apply Permutation_map.
Qed.

(** X16. A value that is [null] on both sides is a match where the
    comparator tests [!== undefined] and nothing where it tests
    [!= null]: a scope field that is [null] in both blocks is recorded in
    [matchedFields], and so is an [employees.value] that is [null] on both
    sides (as "employees: null"), while [calculatedTotalEmissions] and
    [statedTotalEmissions.total] that are [null] on both sides leave the
    result as it was. *)
Theorem null_on_both_sides :
  (forall scopeName prodScope stageScope cr year field,
     In field fields ->
     prodScope ?. scope_get field = null ->
     stageScope ?. scope_get field = null ->
     In (scopeName +:+ "." +:+ field +:+ ": " +:+ year)
       (matchedFields
          (fst (compareEmissions scopeName prodScope stageScope cr year)))
     /\ 1 <= snd (compareEmissions scopeName prodScope stageScope cr year))
  /\ (forall prodEconomy stageEconomy cr year,
        prodEconomy ?. employees ?. employees_value = null ->
        stageEconomy ?. employees ?. employees_value = null ->
        In "employees: null"
          (matchedFields (fst (compareEconomy prodEconomy stageEconomy cr year))))
  /\ (forall prodEmissions stageEmissions cr year,
        prodEmissions ?. calculatedTotalEmissions = null ->
        stageEmissions ?. calculatedTotalEmissions = null ->
        prodEmissions ?. statedTotalEmissions ?. stated_total = null ->
        stageEmissions ?. statedTotalEmissions ?. stated_total = null ->
        compareTotalEmissions prodEmissions stageEmissions cr year = (cr, 0)).
Proof.
  split; [|split].
  - intros scopeName prodScope stageScope cr year field Hin Hp Hs.
    rewrite compareEmissions_spec. cbn [fst snd add_entries matchedFields].
    assert (In (scopeName +:+ "." +:+ field +:+ ": " +:+ year)
              (emissions_matched scopeName prodScope stageScope year)) as Hlabel.
    { unfold emissions_matched.
      apply (in_map (fun f => scope_label scopeName f year)).
      apply filter_In. split; [done|]. unfold field_matches. by rewrite Hp, Hs. }
    split; [apply in_or_app; by right|].
    destruct (emissions_matched scopeName prodScope stageScope year);
      [destruct Hlabel|cbn [length]; lia].
  - intros prodEconomy stageEconomy cr year Hp Hs.
    rewrite compareEconomy_spec. cbn [fst add_entries matchedFields].
    apply in_or_app. right. unfold economy_matched, employees_defined,
      employees_equal. rewrite Hp, Hs. cbn. by left.
  - intros prodEmissions stageEmissions cr year Hpc Hsc Hps Hss.
    rewrite compareTotalEmissions_spec.
    unfold totalEmissions_matched, totalEmissions_mismatched.
    rewrite Hpc, Hsc, Hps, Hss. cbn. by rewrite add_entries_nil.
Qed.

Lemma category_matches_skip before extra after prodCategory :
  category prodCategory <> category extra ->
  category_matches (before ++ extra :: after) prodCategory =
  category_matches (before ++ after) prodCategory.
Proof.
  intros Hne. unfold category_matches. rewrite find_skip; [done|].
  apply bool_decide_eq_false. congruence.
Qed.

(** X17. A staging scope-3 category whose number no production category
    has is never reported: removing it from the staging block changes
    nothing in what [compareScope3] records and returns. *)
Theorem staging_only_category (prodScope3 : js Scope3) (stageScope3 : Scope3)
    (before after : list Category) (extra : Category)
    (cr : ComparisonResult) (year : string) :
  (forall prodCategories c,
     prodScope3 ?. categories = val prodCategories ->
     In c prodCategories -> category c <> category extra) ->
  compareScope3 prodScope3 (val (with_categories (before ++ extra :: after) stageScope3))
    cr year =
  compareScope3 prodScope3 (val (with_categories (before ++ after) stageScope3))
    cr year.
Proof.
  intros Hextra. rewrite !compareScope3_spec.
  unfold scope3_matched, scope3_mismatched, categories_matched,
    categories_mismatched.
  cbn [optchain with_categories scope3_statedTotalEmissions categories].
  destruct (prodScope3 ?. categories) as [| |prodCategories] eqn:Hp; try done.
  assert (List.filter (category_matches (before ++ extra :: after)) prodCategories =
          List.filter (category_matches (before ++ after)) prodCategories) as ->.
  { apply filter_ext_in. intros c Hc. apply category_matches_skip.
    by apply (Hextra prodCategories). }
  assert (List.filter (fun c => negb (category_matches (before ++ extra :: after) c))
            prodCategories =
          List.filter (fun c => negb (category_matches (before ++ after) c))
            prodCategories) as ->; [|done].
  apply filter_ext_in. intros c Hc. f_equal. apply category_matches_skip.
  by apply (Hextra prodCategories).
Qed.

End Proofs.

Import Examples.

(** ** The claims on concrete datasets *)

(** C1, counterexample. With one matching field out of a denominator of
    20009 the accuracy is 0 although neither counter is 0; with all four
    fields of the scope-1 and scope-2 blocks populated and equal, 12
    matches stand against a denominator of 9 and the accuracy is 133.33. *)
Lemma accuracy_counterexample :
  comparePeriods prod_many stage_many =
    Ok {| comparisonResult :=
            {| result_name := "Acme";
               inStaging := undefined;
               matchedFields := ["calculatedTotalEmissions: 2022"];
               mismatchedFields := [];
               accuracy := 0;
               note := undefined |};
          matchedFieldCount := 1;
          totalFieldCount := 20009 |}
  /\ compareData [stage_many] [prod_many] =
       Ok [ {| result_name := "Acme";
               inStaging := undefined;
               matchedFields := ["calculatedTotalEmissions: 2022"];
               mismatchedFields := [];
               accuracy := 0;
               note := val "All data matches between production and staging" |} ]
  /\ (exists r,
        compareData [full_company] [full_company] = Ok [r]
        /\ length (matchedFields r) = 12%nat
        /\ accuracy r = 13333).
Proof.
  split; [vm_compute; reflexivity|]. split; [vm_compute; reflexivity|].
  eexists. split; [vm_compute; reflexivity|]. split; reflexivity.
Qed.

(** C1, witness: on the pair of datasets that differ in [scope1.total]
    every accuracy lies between 0 and 100. *)
Lemma accuracy_range_witness :
  exists results,
    compareData [stage_200] [prod_100] = Ok results
    /\ Forall (fun r => 0 <= accuracy r <= 10000) results.
Proof.
  destruct (accuracy_range [stage_200] [prod_100]) as (results & Hcmp & Hall).
  exists results. split; [exact Hcmp|].
  inversion Hall as [|c r cs rs Hr Hrest]; subst.
  inversion Hrest; subst. constructor; [|constructor].
  change (stage_company [stage_200] prod_100) with (Some stage_200) in Hr.
  destruct Hr as (st & _ & _ & _ & _ & Hlow & _ & _ & _ & Hhigh & Hweights).
  split; [exact Hlow|]. apply Hhigh, Hweights.
  repeat constructor.
Defined.




(** C3, counterexample. Totals that are [null] on both sides record
    nothing: no match and no mismatch entry. *)
Lemma both_null_counterexample :
  compareTotalEmissions (val emissions_null) (val emissions_null) blank "2022"
    = (blank, 0)
  /\ compareScope3 (val scope3_null) (val scope3_null) blank "2022"
     = Ok (blank, 0)
  /\ mismatchedFields blank = [].
Proof. repeat split; vm_compute; reflexivity. Qed.

(** C4, on a failing input. Production and staging differ in
    [scope1.total]; [compareData] records the mismatch as the string
    "scope1.total: 2022", and the scope-1 column of the row shows "N/A",
    not the two values. *)
Theorem csv_mismatch_not_shown :
  compareData [stage_200] [prod_100] =
    Ok [ {| result_name := "Acme";
            inStaging := undefined;
            matchedFields := [];
            mismatchedFields := [EntryString "scope1.total: 2022"];
            accuracy := 0;
            note :=
              val "Partial mismatch or missing data between production and staging" |} ]
  /\ generateCSV
       [ {| result_name := "Acme";
            inStaging := undefined;
            matchedFields := [];
            mismatchedFields := [EntryString "scope1.total: 2022"];
            accuracy := 0;
            note :=
              val "Partial mismatch or missing data between production and staging" |} ]
     = [ {| csv_name := "Acme";
            csv_inStaging := "No";
            csv_scope1 := "N/A";
            csv_scope2 := "N/A";
            csv_scope3 := "N/A";
            csv_employees := "N/A";
            csv_economy := "N/A";
            csv_accuracy := 0 |} ].
Proof. split; vm_compute; reflexivity. Qed.

(** C5, witness: staging holds only a company that production does not
    have. *)
Lemma absent_company_witness :
  compareData [other_company] [prod_100] =
    Ok [ {| result_name := "Acme";
            inStaging := undefined;
            matchedFields := [];
            mismatchedFields := [EntryString "Company does not exist in staging"];
            accuracy := 0;
            note := val "Exists in production but not in staging" |} ]
  /\ compareData [] [prod_100] = compareData [other_company] [prod_100].
Proof.
  destruct (absent_company [other_company] [prod_100])
    as (results & Hcmp & _ & Hall & Hextra).
  assert (compareData [] [prod_100] = Ok results) as Hwithout.
  { apply (Hextra [] other_company [] eq_refl).
    intros c [<-|[]]. vm_compute. discriminate. }
  rewrite Hwithout, Hcmp. split; [|reflexivity].
  inversion Hall as [|c r cs rs [_ Hr] Hrest]; subst.
  inversion Hrest; subst. f_equal. f_equal. apply Hr.
  intros c [<-|[]]. vm_compute. discriminate.
Defined.

(** C7, witness: the scope-3 example, categories 1, 2, 3 against 1, 2. *)
Lemma scope3_categories_witness :
  scope3_step period_prod period_stage "2022" blank_state =
    Ok {| comparisonResult :=
            {| result_name := "Acme";
               inStaging := undefined;
               matchedFields := ["scope3.category=1: 2022"];
               mismatchedFields :=
                 [EntryString "scope3.category=2: 2022";
                  EntryString "scope3.category=3: 2022"];
               accuracy := 0;
               note := undefined |};
          matchedFieldCount := 1;
          totalFieldCount := 4 |}.
Proof.
  destruct (scope3_categories period_prod period_stage categories_prod
              categories_stage "2022" blank_state eq_refl eq_refl) as [Hstep _].
  rewrite Hstep. vm_compute. reflexivity.
Defined.

(** C8, witness: staging has the year 2021 only. *)
Lemma missing_period_witness :
  exists st',
    comparePeriod stage_2021 blank_state
      (period "2022-12-31" (val (emissions_scope1 100)) undefined) = Ok st'
    /\ mismatchedFields (comparisonResult st') = [EntryString "Reporting period: 2022"]
    /\ matchedFields (comparisonResult st') = []
    /\ matchedFieldCount st' = 0
    /\ totalFieldCount st' = 0.
Proof.
  apply (missing_period stage_2021 blank_state
           (period "2022-12-31" (val (emissions_scope1 100)) undefined)).
  intros rp [<-|[]]. vm_compute. discriminate.
Defined.



(** ** The examples of the specification *)

(** [scope1.total] is 100 on both sides and no other scope-1 field is
    populated: one match, and a denominator contribution of 1. *)
Example scope1_total_example :
  scope1_step (period "2022-12-31" (val (emissions_scope1 100)) undefined)
    (period "2022-12-31" (val (emissions_scope1 100)) undefined) "2022" blank_state
  = {| comparisonResult := push_matched "scope1.total: 2022" blank;
       matchedFieldCount := 1;
       totalFieldCount := 1 |}.
Proof. vm_compute. reflexivity. Qed.

(** A turnover of 1000000 USD against 1000000 EUR is a mismatch that shows
    both formatted values. *)
Example turnover_example :
  compareEconomy
    (val {| employees := undefined;
            turnover := val {| turnover_value := val 1000000; currency := val "USD" |} |})
    (val {| employees := undefined;
            turnover := val {| turnover_value := val 1000000; currency := val "EUR" |} |})
    blank "2022"
  = (push_mismatched
       "economy: Production(1 000 000 USD) vs Staging(1 000 000 EUR)" blank,
     0).
Proof. vm_compute. reflexivity. Qed.

(** A [null] on both sides of a scope field is a defined, equal value: it
    is recorded as a match. *)
Example null_scope_field_example :
  compareEmissions "scope2"
    (val {| total := undefined; mb := null; lb := val 7; unknown := undefined |})
    (val {| total := undefined; mb := null; lb := undefined; unknown := undefined |})
    blank "2022"
  = (push_matched "scope2.mb: 2022" blank, 1).
Proof. vm_compute. reflexivity. Qed.

(** An entry that carries [field], [production] and [staging] is shown in
    its column, before any matched label is looked at. *)
Example structured_entry_example :
  csv_scope1
    (csvRow
       {| result_name := "Acme";
          inStaging := val true;
          matchedFields := ["scope1.total: 2022"];
          mismatchedFields := [EntryObject (val "scope1") (val "100") undefined];
          accuracy := 0;
          note := undefined |})
  = "Production: 100, Staging: N/A".
Proof. vm_compute. reflexivity. Qed.

(** ** Further properties on concrete datasets *)

(** X6, witness: a second staging company with the [wikidataId] Q1. *)
Lemma duplicate_staging_company_witness :
  compareData ([stage_200] ++ prod_100 :: []) [prod_100] =
  compareData ([stage_200] ++ []) [prod_100].
Proof.
  apply (duplicate_staging_company [stage_200] [] [prod_100] prod_100).
  exists stage_200. split; [by left|reflexivity].
Defined.

(** X7, witness: staging has the years 2022 and 2021, production 2022. *)
Lemma staging_only_period_witness :
  comparePeriods prod_100
    (with_reportingPeriods ([period_2022] ++ period_2021 :: []) stage_200) =
  comparePeriods prod_100 (with_reportingPeriods ([period_2022] ++ []) stage_200).
Proof.
  apply (staging_only_period prod_100 stage_200 [period_2022] [] period_2021).
  intros rp [<-|[]]. vm_compute. discriminate.
Defined.

(** X8, witness: 31 March instead of 31 December 2022. *)
Lemma date_within_year_witness :
  comparePeriod stage_200 blank_state (with_endDate "2022-03-31" period_2022) =
  comparePeriod stage_200 blank_state period_2022.
Proof.
  apply (date_within_year stage_200 blank_state period_2022 "2022-03-31").
  vm_compute. reflexivity.
Defined.

(** X9, witness: three production categories, no scope-3 block in
    staging: nothing is recorded and the denominator grows by 4. *)
Lemma categories_missing_in_staging_witness :
  scope3_step period_prod period_without_scope3 "2022" blank_state =
  Ok {| comparisonResult := blank; matchedFieldCount := 0; totalFieldCount := 4 |}.
Proof.
  rewrite (categories_missing_in_staging period_prod period_without_scope3
             categories_prod "2022" blank_state eq_refl eq_refl).
  vm_compute. reflexivity.
Defined.

(** X12, witness: two structured entries for scope 1 and a matched scope-1
    label; the last entry is shown, and the scope-2 column has nothing. *)
Lemma structured_entry_precedence_witness :
  csv_scope1 (csvRow structured_result) = "Production: 100, Staging: N/A"
  /\ csv_scope2 (csvRow structured_result) = "N/A".
Proof.
  split.
  - destruct (structured_entry_precedence structured_result "scope1" csv_scope1)
      as [Hlast _]; [by left|].
    apply (Hlast [EntryObject (val "scope1") (val "1") (val "2")]
             (EntryObject (val "scope1") (val "100") undefined) []);
      [reflexivity|reflexivity|].
    intros e' [].
  - destruct (structured_entry_precedence structured_result "scope2" csv_scope2)
      as [_ Hnone]; [right; by left|].
    apply Hnone. intros e [<-|[<-|[]]]; vm_compute; discriminate.
Defined.

(** X15, witness: the periods of 2022 and 2021 in the other order. *)
Lemma accuracy_order_independent_witness :
  exists st st',
    comparePeriods two_period_company stage_200 = Ok st
    /\ comparePeriods
         (with_reportingPeriods [period_2021; period_2022] two_period_company)
         stage_200 = Ok st'
    /\ accuracy (finish st') = accuracy (finish st).
Proof.
  destruct (accuracy_order_independent two_period_company stage_200
              [period_2021; period_2022])
    as (st & st' & H1 & H2 & _ & _ & Hacc & _); [apply perm_swap|].
  exists st, st'. split; [exact H1|]. split; [exact H2|exact Hacc].
Defined.

(** X16, witness: [mb] is [null] in both scope-2 blocks. *)
Lemma null_on_both_sides_witness :
  In "scope2.mb: 2022"
    (matchedFields
       (fst (compareEmissions "scope2" (val scope_mb_null) (val scope_mb_null)
               blank "2022")))
  /\ compareTotalEmissions (val emissions_null) (val emissions_null) blank "2022"
     = (blank, 0).
Proof.
  destruct null_on_both_sides as (Hscope & _ & Htotal). split.
  - apply (Hscope "scope2" (val scope_mb_null) (val scope_mb_null) blank "2022" "mb");
      [right; by left|reflexivity|reflexivity].
  - apply Htotal; reflexivity.
Defined.

(** X17, witness: staging lists a category 9 that production does not
    have. *)
Lemma staging_only_category_witness :
  compareScope3 (val scope3_prod)
    (val (with_categories (categories_stage ++ category_9 :: []) scope3_stage))
    blank "2022" =
  compareScope3 (val scope3_prod)
    (val (with_categories (categories_stage ++ []) scope3_stage)) blank "2022".
Proof.
  apply (staging_only_category (val scope3_prod) scope3_stage categories_stage []
           category_9 blank "2022").
  intros prodCategories c Hcs Hc. injection Hcs as <-.
  destruct Hc as [<-|[<-|[<-|[]]]]; vm_compute; discriminate.
Defined.

(** The rounding of the concrete platform at a tie: 23 of 160 is 14.375,
    the double is below it and the script returns 14.37; 1 of 20000 is
    0.005, the double is not below it and the script returns 0.01. Away
    from a tie the closest hundredth is taken: 1 of 3 is 33.33. *)
Example tie_example :
  percentage_toFixed2 23 160 = 1437
  /\ percentage_toFixed2 1 20000 = 1
  /\ percentage_toFixed2 1 3 = 3333.
Proof. repeat split; vm_compute; reflexivity. Qed.
